(** * Swarm monitor node: a shallow embedding of [main.py]

    The development follows the Python module function by function:
    [get_new_log_file], [save_current_logs], [reset_system], the body and
    the loop of [listen_for_messages], and one iteration of
    [monitor_button].  Module-level variables are the fields of [Globals];
    the socket, the GPIO line, the clock and the file system are the
    fields of [World] or explicit arguments.  Console output ([print]) and
    the plotting thread's drawing calls are not modelled. *)

From Stdlib Require Import ZArith NArith Ascii String List Bool Lia.
From stdpp Require Import base decidable option list numbers countable strings gmap.
Import ListNotations.

Local Open Scope Z_scope.

(** ** Text and bytes *)

(** A Python [str] is a sequence of Unicode code points; a [bytes] object
    is a sequence of octets, written here as a Rocq [string]. *)
Abbreviation text := (list N).
Abbreviation bytes := string.

Definition code_points (s : string) : text :=
  (λ a, N_of_ascii a) <$> list_ascii_of_string s.

(** The protocol constants (lines 13-15). *)
Definition RPi_startBit : text := code_points "+++".
Definition RPi_endBit : text := code_points "***".
Definition localPort : Z := 4210.
Definition RESET_REQUESTED : text := code_points "RESET_REQUESTED".
Definition comma : N := 44%N.

Module Utf8.
Local Open Scope N_scope.

Definition between (lo hi b : N) : bool := (lo <=? b) && (b <=? hi).
Definition continuation (b : N) : bool := between 0x80 0xBF b.
Definition low6 (b : N) : N := N.land b 0x3F.

(** [bytes.decode('utf-8')] in strict mode: the well-formed sequences of
    the Unicode standard (no overlong form, no surrogate, nothing above
    U+10FFFF); anything else raises [UnicodeDecodeError]. *)
Fixpoint decode_octets (bs : list N) : option text :=
  match bs with
  | [] => Some []
  | b0 :: r0 =>
    if b0 <? 0x80 then cons b0 <$> decode_octets r0
    else if between 0xC2 0xDF b0 then
      match r0 with
      | b1 :: r1 =>
        if continuation b1
        then cons (N.lor (N.shiftl (N.land b0 0x1F) 6) (low6 b1)) <$> decode_octets r1
        else None
      | _ => None
      end
    else if between 0xE0 0xEF b0 then
      match r0 with
      | b1 :: b2 :: r2 =>
        let lo := if b0 =? 0xE0 then 0xA0 else 0x80 in
        let hi := if b0 =? 0xED then 0x9F else 0xBF in
        if between lo hi b1 && continuation b2
        then cons (N.lor (N.shiftl (N.land b0 0x0F) 12)
                     (N.lor (N.shiftl (low6 b1) 6) (low6 b2)))
               <$> decode_octets r2
        else None
      | _ => None
      end
    else if between 0xF0 0xF4 b0 then
      match r0 with
      | b1 :: b2 :: b3 :: r3 =>
        let lo := if b0 =? 0xF0 then 0x90 else 0x80 in
        let hi := if b0 =? 0xF4 then 0x8F else 0xBF in
        if between lo hi b1 && continuation b2 && continuation b3
        then cons (N.lor (N.shiftl (N.land b0 0x07) 18)
                     (N.lor (N.shiftl (low6 b1) 12)
                        (N.lor (N.shiftl (low6 b2) 6) (low6 b3))))
               <$> decode_octets r3
        else None
      | _ => None
      end
    else None
  end.

Definition decode (m : bytes) : option text := decode_octets (code_points m).
End Utf8.

(** ** The [str] methods the listener uses *)

Module Str.
Fixpoint startswith (s p : text) : bool :=
  match p, s with
  | [], _ => true
  | c :: p', d :: s' => (c =? d)%N && startswith s' p'
  | _ :: _, [] => false
  end.

Definition endswith (s p : text) : bool := startswith (rev s) (rev p).

(** [s[a:-b]] for [b > 0]: the stop index is [max (len s - b) 0]. *)
Definition slice (a b : nat) (s : text) : text :=
  take (length s - b - a)%nat (drop a s).

(** [c in s]. *)
Definition contains (c : N) (s : text) : bool := existsb (N.eqb c) s.

(** [s.split(sep)] for a one-character separator: never empty. *)
Fixpoint split (sep : N) (s : text) : list text :=
  match s with
  | [] => [[]]
  | c :: s' =>
    if (c =? sep)%N then [] :: split sep s'
    else match split sep s' with
         | p :: ps => (c :: p) :: ps
         | [] => [[c]]
         end
  end.
End Str.

(** ** [int(str)] in base 10 *)

Module PyInt.
Local Open Scope N_scope.

(** Code points whose decimal value is zero (Unicode 14, the database
    of CPython 3.11); each starts a run of the ten digits 0..9. *)
Definition decimal_zeros : list N :=
  [48; 1632; 1776; 1984; 2406; 2534; 2662; 2790; 2918; 3046; 3174; 3302;
   3430; 3558; 3664; 3792; 3872; 4160; 4240; 6112; 6160; 6470; 6608; 6784;
   6800; 6992; 7088; 7232; 7248; 42528; 43216; 43264; 43472; 43504; 43600;
   44016; 65296; 66720; 68912; 69734; 69872; 69942; 70096; 70384; 70736;
   70864; 71248; 71360; 71472; 71904; 72016; 72784; 73040; 73120; 92768;
   92864; 93008; 120782; 120792; 120802; 120812; 120822; 123200; 123632;
   125264; 130032].

Definition to_decimal (c : N) : option N :=
  (λ z, c - z) <$> find (λ z, (z <=? c) && (c <? z + 10)) decimal_zeros.

(** [Py_UNICODE_ISSPACE] above the ASCII range. *)
Definition unicode_space (c : N) : bool :=
  (c =? 0x85) || (c =? 0xA0) || (c =? 0x1680) || Utf8.between 0x2000 0x200A c
  || (c =? 0x2028) || (c =? 0x2029) || (c =? 0x202F) || (c =? 0x205F)
  || (c =? 0x3000).

(** [Py_ISSPACE]: the six ASCII blanks the number parser skips. *)
Definition ascii_space (c : N) : bool := Utf8.between 9 13 c || (c =? 32).

Definition ascii_digit (c : N) : bool := Utf8.between 48 57 c.

(** Non-ASCII blanks become a space, non-ASCII decimal digits their
    ASCII digit, any other non-ASCII character a question mark. *)
Definition to_ascii (c : N) : N :=
  if c <? 127 then c
  else if unicode_space c then 32
  else match to_decimal c with Some d => 48 + d | None => 63 end.

(** Digits with single underscores between them; [prev] tells whether
    the previous character was an underscore. *)
Fixpoint digits (acc : Z) (prev : bool) (s : text) : option Z :=
  match s with
  | [] => if prev then None else Some acc
  | c :: s' =>
    if ascii_digit c then digits (10 * acc + Z.of_N (c - 48))%Z false s'
    else if c =? 95 then (if prev then None else digits acc true s')
    else None
  end.

Definition unsigned (s : text) : option Z :=
  match s with
  | c :: _ => if ascii_digit c then digits 0%Z false s else None
  | [] => None
  end.

Fixpoint lstrip (s : text) : text :=
  match s with
  | c :: s' => if ascii_space c then lstrip s' else s
  | [] => []
  end.

Definition strip (s : text) : text := rev (lstrip (rev (lstrip s))).

(** [int(s)]: [None] stands for [ValueError].  The limit on the number
    of digits (4300 by default) is out of reach of a datagram of 1024
    bytes and is left out. *)
Definition int (s : text) : option Z :=
  match strip (to_ascii <$> s) with
  | 43 :: s' => unsigned s'
  | 45 :: s' => Z.opp <$> unsigned s'
  | s' => unsigned s'
  end.
End PyInt.

(** ** Insertion-ordered dictionaries

    [save_current_logs] iterates [MASTER_DURATION_TRACK] and
    [MASTER_LOG_TRACK] in insertion order, so both are association lists
    in which a key is updated in place and a new key goes last. *)

Section OrderedDict.
Context {K V : Type} `{EqDecision K}.

Fixpoint od_get (k : K) (d : list (K * V)) : option V :=
  match d with
  | [] => None
  | (k', v) :: d' => if decide (k = k') then Some v else od_get k d'
  end.

Fixpoint od_set (k : K) (v : V) (d : list (K * V)) : list (K * V) :=
  match d with
  | [] => [(k, v)]
  | (k', v') :: d' =>
    if decide (k = k') then (k, v) :: d' else (k', v') :: od_set k v d'
  end.

(** [d[k]] on a [defaultdict] whose factory yields [dflt]. *)
Definition od_default (dflt : V) (k : K) (d : list (K * V)) : V :=
  default dflt (od_get k d).
End OrderedDict.

(** ** Module-level state *)

Inductive color := red | green | yellow.

(** The three colours in the order the listener hands them out. *)
Definition palette : list color := [red; green; yellow].

(** [datetime.now()], in microseconds. *)
Abbreviation Time := Z.

(** The line [f"Time: {now}, Swarm ID: {swarm_id}, Reading: {analog_reading}"],
    kept as its three interpolated values. *)
Record log_entry := mkEntry {
  entry_time : Time;
  entry_swarm : text;
  entry_reading : text }.

(** The name [f"master_log_{timestamp}.txt"], kept as the whole second the
    timestamp is formatted from. *)
Abbreviation file_name := Z.

Record Globals := mkGlobals {
  PREV_BUTTON_STATE : Z;
  RESET_REQUEST : bool;
  STOP_THREADS : bool;
  ANALOG_READINGS : list Z;                          (* deque(maxlen=30), oldest first *)
  SWARM_COLORS : gmap text color;
  CURRENT_MASTER : option text;
  MASTER_DURATION_TRACK : list (text * Z);           (* defaultdict(int) *)
  MASTER_LOG_TRACK : list (string * list log_entry); (* defaultdict(list) *)
  LOG_FILE : option file_name }.

(** The values the module assigns at import time (lines 32-40). *)
Definition initial : Globals :=
  {| PREV_BUTTON_STATE := 0; RESET_REQUEST := false; STOP_THREADS := false;
     ANALOG_READINGS := []; SWARM_COLORS := ∅; CURRENT_MASTER := None;
     MASTER_DURATION_TRACK := []; MASTER_LOG_TRACK := []; LOG_FILE := None |}.

Definition set_PREV_BUTTON_STATE (v : Z) (g : Globals) : Globals :=
  mkGlobals v (RESET_REQUEST g) (STOP_THREADS g) (ANALOG_READINGS g) (SWARM_COLORS g)
    (CURRENT_MASTER g) (MASTER_DURATION_TRACK g) (MASTER_LOG_TRACK g) (LOG_FILE g).
Definition set_RESET_REQUEST (v : bool) (g : Globals) : Globals :=
  mkGlobals (PREV_BUTTON_STATE g) v (STOP_THREADS g) (ANALOG_READINGS g) (SWARM_COLORS g)
    (CURRENT_MASTER g) (MASTER_DURATION_TRACK g) (MASTER_LOG_TRACK g) (LOG_FILE g).
Definition set_ANALOG_READINGS (v : list Z) (g : Globals) : Globals :=
  mkGlobals (PREV_BUTTON_STATE g) (RESET_REQUEST g) (STOP_THREADS g) v (SWARM_COLORS g)
    (CURRENT_MASTER g) (MASTER_DURATION_TRACK g) (MASTER_LOG_TRACK g) (LOG_FILE g).
Definition set_SWARM_COLORS (v : gmap text color) (g : Globals) : Globals :=
  mkGlobals (PREV_BUTTON_STATE g) (RESET_REQUEST g) (STOP_THREADS g) (ANALOG_READINGS g) v
    (CURRENT_MASTER g) (MASTER_DURATION_TRACK g) (MASTER_LOG_TRACK g) (LOG_FILE g).
Definition set_CURRENT_MASTER (v : option text) (g : Globals) : Globals :=
  mkGlobals (PREV_BUTTON_STATE g) (RESET_REQUEST g) (STOP_THREADS g) (ANALOG_READINGS g)
    (SWARM_COLORS g) v (MASTER_DURATION_TRACK g) (MASTER_LOG_TRACK g) (LOG_FILE g).
Definition set_MASTER_DURATION_TRACK (v : list (text * Z)) (g : Globals) : Globals :=
  mkGlobals (PREV_BUTTON_STATE g) (RESET_REQUEST g) (STOP_THREADS g) (ANALOG_READINGS g)
    (SWARM_COLORS g) (CURRENT_MASTER g) v (MASTER_LOG_TRACK g) (LOG_FILE g).
Definition set_MASTER_LOG_TRACK (v : list (string * list log_entry)) (g : Globals) : Globals :=
  mkGlobals (PREV_BUTTON_STATE g) (RESET_REQUEST g) (STOP_THREADS g) (ANALOG_READINGS g)
    (SWARM_COLORS g) (CURRENT_MASTER g) (MASTER_DURATION_TRACK g) v (LOG_FILE g).
Definition set_LOG_FILE (v : option file_name) (g : Globals) : Globals :=
  mkGlobals (PREV_BUTTON_STATE g) (RESET_REQUEST g) (STOP_THREADS g) (ANALOG_READINGS g)
    (SWARM_COLORS g) (CURRENT_MASTER g) (MASTER_DURATION_TRACK g) (MASTER_LOG_TRACK g) v.

(** ** Exceptions *)

Inductive exn := UnicodeDecodeError | ValueError | OSError.

(** A statement either completes or raises; in both cases the state it
    leaves behind is kept, because mutations made before the exception
    are not undone. *)
Inductive outcome (S : Type) :=
| Done (s : S)
| Raised (e : exn) (s : S).
Arguments Done {S} s.
Arguments Raised {S} e s.

Definition state_of {S} (o : outcome S) : S :=
  match o with Done s | Raised _ s => s end.

Definition completes {S} (o : outcome S) : bool :=
  match o with Done _ => true | Raised _ _ => false end.

(** ** The bounded reading buffer *)

Definition maxlen : nat := 30.

(** [deque.append] on a deque with [maxlen=30]: when the deque is full
    the leftmost element is dropped. *)
Definition deque_append (x : Z) (d : list Z) : list Z :=
  if decide (length d < maxlen)%nat then d ++ [x] else drop 1 d ++ [x].

(** ** The listener: lines 116-154, what one iteration does with the
    datagram [recvfrom] returned

    Unpacking [data.split(',')] into two names raises [ValueError] unless
    the list has exactly two items; [continue] and reaching the end of the
    body both finish the iteration ([Done]). *)

Definition assign_color (swarm_id : text) (colors : gmap text color) : gmap text color :=
  match colors !! swarm_id with
  | Some _ => colors
  | None =>
    if decide (size colors = 0%nat) then <[swarm_id := red]> colors
    else if decide (size colors = 1%nat) then <[swarm_id := green]> colors
    else <[swarm_id := yellow]> colors
  end.

(** Lines 128-129: [MASTER_LOG_TRACK[ip].append(log_entry)]. *)
Definition log_raw (now : Time) (ip : string) (swarm_id analog_reading : text)
    (g : Globals) : Globals :=
  set_MASTER_LOG_TRACK
    (od_set ip (od_default [] ip (MASTER_LOG_TRACK g) ++ [mkEntry now swarm_id analog_reading])
       (MASTER_LOG_TRACK g)) g.

(** Lines 139-154: the reading, the colour, the master and its duration. *)
Definition update_store (swarm_id : text) (reading : Z) (g : Globals) : Globals :=
  let g := set_ANALOG_READINGS (deque_append reading (ANALOG_READINGS g)) g in
  let g := set_SWARM_COLORS (assign_color swarm_id (SWARM_COLORS g)) g in
  let g := if decide (CURRENT_MASTER g = Some swarm_id) then g
           else set_CURRENT_MASTER (Some swarm_id) g in
  set_MASTER_DURATION_TRACK
    (od_set swarm_id (od_default 0 swarm_id (MASTER_DURATION_TRACK g) + 1)
       (MASTER_DURATION_TRACK g)) g.

Definition framed (message : text) : bool :=
  Str.startswith message RPi_startBit && Str.endswith message RPi_endBit.

Definition interior (message : text) : text :=
  Str.slice (length RPi_startBit) (length RPi_endBit) message.

Definition process_message (now : Time) (message : bytes) (ip : string)
    (g : Globals) : outcome Globals :=
  match Utf8.decode message with
  | None => Raised UnicodeDecodeError g
  | Some message =>
    if framed message then
      let data := interior message in
      if Str.contains comma data then
        match Str.split comma data with
        | [swarm_id; analog_reading] =>
          let g := log_raw now ip swarm_id analog_reading g in
          if decide (data = RESET_REQUESTED) then Done g
          else
            match Str.split comma data with
            | [swarm_id; analog_reading] =>
              match PyInt.int analog_reading with
              | None => Raised ValueError g
              | Some reading => Done (update_store swarm_id reading g)
              end
            | _ => Raised ValueError g
            end
        | _ => Raised ValueError g
        end
      else Done g
    else Done g
  end.

(** ** The listener loop, lines 109-154

    The script lists what successive calls of [recvfrom] return, each
    with the clock reading used for the log line. *)

Inductive recv :=
| Received (message : bytes) (address : string)
| SocketError.

Inductive loop_exit :=
| Waiting           (* the script is used up: blocked in [recvfrom] *)
| Stopped           (* [STOP_THREADS] was set *)
| Spinning          (* [RESET_REQUEST] is set: the loop polls without receiving *)
| BrokeOut          (* [socket.error]: [break] *)
| Died (e : exn).   (* an exception left the function *)

Fixpoint listen_for_messages (script : list (Time * recv)) (g : Globals)
    : loop_exit * Globals :=
  if STOP_THREADS g then (Stopped, g)
  else if RESET_REQUEST g then (Spinning, g)
  else
    match script with
    | [] => (Waiting, g)
    | (_, SocketError) :: _ => (BrokeOut, g)
    | (now, Received message address) :: script' =>
      match process_message now message address g with
      | Done g' => listen_for_messages script' g'
      | Raised e g' => (Died e, g')
      end
    end.

(** ** Devices *)

(** What the program does to the world outside its locals, in program
    order: socket sends, GPIO writes, sleeps, and the writes of
    [reset_system] to the shared globals. *)
Inductive event :=
| Assign_RESET_REQUEST (b : bool)
| Sendto (payload : bytes) (host : string) (port : Z)
| Assign_SWARM_COLORS_empty
| Assign_CURRENT_MASTER_None
| Clear_MASTER_DURATION_TRACK
| Clear_ANALOG_READINGS
| Yellow_led_set_value (v : Z)
| Sleep (milliseconds : Z).

(** What [save_current_logs] writes: the creation line, the summary
    lines and, per sender address, the raw lines. *)
Record log_file := mkLogFile {
  created : Time;
  summary : list (text * Z);
  raw : list (string * list log_entry) }.

(** [inbox] is the receive queue of the bound socket, oldest datagram
    first, each with the address of its sender; the queue is taken to be
    long enough for what arrives. *)
Record World := mkWorld {
  globals : Globals;
  inbox : list (bytes * string);
  effects : list event;
  files : list (file_name * log_file) }.

Definition initial_world : World := mkWorld initial [] [] [].

Definition with_globals (f : Globals → Globals) (w : World) : World :=
  mkWorld (f (globals w)) (inbox w) (effects w) (files w).
Definition emit (e : event) (w : World) : World :=
  mkWorld (globals w) (inbox w) (effects w ++ [e]) (files w).
Definition set_inbox (q : list (bytes * string)) (w : World) : World :=
  mkWorld (globals w) q (effects w) (files w).
Definition set_files (fs : list (file_name * log_file)) (w : World) : World :=
  mkWorld (globals w) (inbox w) (effects w) fs.

(** ** Log files, lines 43-73 *)

Definition log_file_name (now : Time) : file_name := now / 1000000.

Definition get_new_log_file (now : Time) (w : World) : World :=
  with_globals (set_LOG_FILE (Some (log_file_name now))) w.

(** Opening with mode ['w'] replaces the file; the write is taken to
    succeed. *)
Definition save_current_logs (now : Time) (w : World) : World :=
  match LOG_FILE (globals w) with
  | None => w
  | Some name =>
    set_files
      (od_set name
         (mkLogFile now (MASTER_DURATION_TRACK (globals w)) (MASTER_LOG_TRACK (globals w)))
         (files w)) w
  end.

(** ** The reset, lines 75-100 *)

Definition stmt := World → outcome World.

Fixpoint exec (body : list stmt) (w : World) : outcome World :=
  match body with
  | [] => Done w
  | s :: body' =>
    match s w with
    | Done w' => exec body' w'
    | Raised e w' => Raised e w'
    end
  end.

Definition reset_message : bytes := "+++RESET_REQUESTED***".

Definition assign_RESET_REQUEST (b : bool) : stmt :=
  λ w, Done (emit (Assign_RESET_REQUEST b) (with_globals (set_RESET_REQUEST b) w)).

(** [sock.sendto]: raises [OSError] when the network refuses the send
    ([delivered = false]). *)
Definition sendto (delivered : bool) (payload : bytes) (host : string) (port : Z) : stmt :=
  λ w, if delivered then Done (emit (Sendto payload host port) w) else Raised OSError w.

Definition assign_SWARM_COLORS_empty : stmt :=
  λ w, Done (emit Assign_SWARM_COLORS_empty (with_globals (set_SWARM_COLORS ∅) w)).
Definition assign_CURRENT_MASTER_None : stmt :=
  λ w, Done (emit Assign_CURRENT_MASTER_None (with_globals (set_CURRENT_MASTER None) w)).
Definition clear_MASTER_DURATION_TRACK : stmt :=
  λ w, Done (emit Clear_MASTER_DURATION_TRACK (with_globals (set_MASTER_DURATION_TRACK []) w)).
Definition clear_ANALOG_READINGS : stmt :=
  λ w, Done (emit Clear_ANALOG_READINGS (with_globals (set_ANALOG_READINGS []) w)).
Definition yellow_led_set_value (v : Z) : stmt :=
  λ w, Done (emit (Yellow_led_set_value v) w).
Definition sleep (milliseconds : Z) : stmt :=
  λ w, Done (emit (Sleep milliseconds) w).

Definition reset_system_body (delivered : bool) : list stmt :=
  [ assign_RESET_REQUEST true;
    sendto delivered reset_message "<broadcast>" localPort;
    assign_SWARM_COLORS_empty;
    assign_CURRENT_MASTER_None;
    clear_MASTER_DURATION_TRACK;
    clear_ANALOG_READINGS;
    yellow_led_set_value 1;
    sleep 3000;
    yellow_led_set_value 0;
    assign_RESET_REQUEST false ].

Definition reset_system (delivered : bool) : stmt := exec (reset_system_body delivered).

(** ** One iteration of [monitor_button], lines 164-171 *)

Definition monitor_iteration (t_save t_new : Time) (delivered : bool)
    (button_state : Z) : stmt :=
  λ w,
    let pressed :=
      if decide (button_state = 1 ∧ PREV_BUTTON_STATE (globals w) = 0)
      then reset_system delivered (get_new_log_file t_new (save_current_logs t_save w))
      else Done w in
    match pressed with
    | Done w' =>
      exec [ (λ w, Done (with_globals (set_PREV_BUTTON_STATE button_state) w)); sleep 100 ] w'
    | Raised e w' => Raised e w'
    end.

(** ** The socket queue

    [recvfrom(1024)] returns the oldest queued datagram, cut to 1024
    bytes. *)

Definition recvfrom_1024 (payload : bytes) : bytes :=
  String.substring 0 1024 payload.

Definition arrive (payload : bytes) (address : string) (w : World) : World :=
  set_inbox (inbox w ++ [(payload, address)]) w.

(** ** The threads, statement by statement

    The listener, the button monitor and the plotting thread share the
    globals, and the interpreter may switch threads between any two
    statements.  Each thread is therefore kept as a position in its code,
    and a step of a thread runs one statement: a simple statement, or an
    [if] together with the assignment it guards.  The test of the flags
    (lines 109-110) and the call of [recvfrom] (line 112) are two steps:
    a listener inside [recvfrom] has tested the flag before.
    [save_current_logs] and [get_new_log_file] are one step each.

    Not modelled: a thread switch inside a statement, that is between the
    read and the write of lines 142-148, 150-151 and 154; a failing file
    write; the interrupt handler of the main block, the only code that
    sets [STOP_THREADS] and closes the socket.  What is proved over the
    steps concerns the request flag, the queue of the socket, the raw log
    and the buffer of readings, each of which is written by single
    assignments and single calls. *)

(** *** The listener

    A statement of the body takes the clock (read at line 128 only) and
    the globals.  [decode], the splitting and [int] work on locals; where
    one of them raises, the list of statements ends with one that
    raises. *)

Definition body_stmt := Time → Globals → outcome Globals.

Definition raise (e : exn) : body_stmt := λ _ g, Raised e g.

(** Lines 128-129. *)
Definition append_log (ip : string) (swarm_id analog_reading : text) : body_stmt :=
  λ now g, Done (log_raw now ip swarm_id analog_reading g).

(** Line 139, once [int] has returned. *)
Definition append_reading (reading : Z) : body_stmt :=
  λ _ g, Done (set_ANALOG_READINGS (deque_append reading (ANALOG_READINGS g)) g).

(** Lines 142-148. *)
Definition assign_swarm_color (swarm_id : text) : body_stmt :=
  λ _ g, Done (set_SWARM_COLORS (assign_color swarm_id (SWARM_COLORS g)) g).

(** Lines 150-152. *)
Definition assign_master (swarm_id : text) : body_stmt :=
  λ _ g, Done (if decide (CURRENT_MASTER g = Some swarm_id) then g
               else set_CURRENT_MASTER (Some swarm_id) g).

(** Line 154. *)
Definition count_master (swarm_id : text) : body_stmt :=
  λ _ g, Done (set_MASTER_DURATION_TRACK
                 (od_set swarm_id (od_default 0 swarm_id (MASTER_DURATION_TRACK g) + 1)
                    (MASTER_DURATION_TRACK g)) g).

(** The statements lines 116-154 run for a message, in order. *)
Definition body_statements (message : bytes) (ip : string) : list body_stmt :=
  match Utf8.decode message with
  | None => [raise UnicodeDecodeError]
  | Some message =>
    if framed message then
      let data := interior message in
      if Str.contains comma data then
        match Str.split comma data with
        | [swarm_id; analog_reading] =>
          append_log ip swarm_id analog_reading
          :: (if decide (data = RESET_REQUESTED) then []
              else
                match Str.split comma data with
                | [swarm_id; analog_reading] =>
                  match PyInt.int analog_reading with
                  | None => [raise ValueError]
                  | Some reading =>
                    [ append_reading reading; assign_swarm_color swarm_id;
                      assign_master swarm_id; count_master swarm_id ]
                  end
                | _ => [raise ValueError]
                end)
        | _ => [raise ValueError]
        end
      else []
    else []
  end.


(** Where the listener is: about to test the two flags (lines 109-110);
    inside [recvfrom], which it entered having found both flags down
    (line 112); about to run statement [k] of the body for the message it
    received; or out of its loop. *)
Inductive listener_at :=
| Testing
| Receiving
| Handling (message : bytes) (ip : string) (k : nat)
| ListenerEnded (how : loop_exit).

(** *** The button monitor

    The statements of one iteration after the level was read (line 164):
    for a press the two log functions and the statements of
    [reset_system]; then the level is remembered and the thread
    sleeps. *)
Definition iteration_statements (now : Time) (delivered : bool) (button_state : Z)
    (pressed : bool) : list stmt :=
  (if pressed
   then (λ w, Done (save_current_logs now w))
        :: (λ w, Done (get_new_log_file now w))
        :: reset_system_body delivered
   else [])
  ++ [ (λ w, Done (with_globals (set_PREV_BUTTON_STATE button_state) w)); sleep 100 ].

(** Where the button monitor is: about to test [STOP_THREADS] and read
    the level (lines 163-164); about to run statement [k] of an iteration
    in which it read [button_state]; or out of its loop. *)
Inductive button_at :=
| Sampling
| Iterating (button_state : Z) (pressed : bool) (k : nat)
| ButtonEnded (how : loop_exit).

(** *** The plotting thread

    Of [plot_graph] only what touches the shared globals: in [plt.show]
    until the window is closed; then the test of [RESET_REQUEST] at line
    240, which, found up, leads to the clearing of
    [MASTER_DURATION_TRACK] at line 245. *)
Inductive plotter_at := Showing | Clearing | PlotterEnded.

(** *** The system *)

Record System := mkSystem {
  world : World;
  listener : listener_at;
  button : button_at;
  plotter : plotter_at }.

(** A step of the system: a datagram arrives; the listener, the button
    monitor or the plotting thread runs its next statement.  The action
    carries what the statement takes from outside: the clock, whether the
    broadcast goes through, the level of the button line. *)
Inductive action :=
| Arrive (payload : bytes) (address : string)
| Listen (now : Time)
| Button (now : Time) (delivered : bool) (level : Z)
| Plotter.

Definition listener_step (now : Time) (s : System) : System :=
  let g := globals (world s) in
  match listener s with
  | Testing =>
    if STOP_THREADS g then mkSystem (world s) (ListenerEnded Stopped) (button s) (plotter s)
    else if RESET_REQUEST g then s
    else mkSystem (world s) Receiving (button s) (plotter s)
  | Receiving =>
    match inbox (world s) with
    | [] => s
    | (payload, address) :: queued =>
      mkSystem (set_inbox queued (world s))
        (match body_statements (recvfrom_1024 payload) address with
         | [] => Testing
         | _ :: _ => Handling (recvfrom_1024 payload) address 0
         end)
        (button s) (plotter s)
    end
  | Handling message ip k =>
    match body_statements message ip !! k with
    | None => mkSystem (world s) Testing (button s) (plotter s)
    | Some statement =>
      match statement now g with
      | Done g' =>
        mkSystem (with_globals (λ _, g') (world s))
          (if decide (S k < length (body_statements message ip))%nat
           then Handling message ip (S k) else Testing)
          (button s) (plotter s)
      | Raised e g' =>
        mkSystem (with_globals (λ _, g') (world s)) (ListenerEnded (Died e))
          (button s) (plotter s)
      end
    end
  | ListenerEnded _ => s
  end.

Definition button_step (now : Time) (delivered : bool) (level : Z) (s : System) : System :=
  match button s with
  | Sampling =>
    if STOP_THREADS (globals (world s))
    then mkSystem (world s) (listener s) (ButtonEnded Stopped) (plotter s)
    else
      mkSystem (world s) (listener s)
        (Iterating level
           (bool_decide (level = 1 ∧ PREV_BUTTON_STATE (globals (world s)) = 0)) 0)
        (plotter s)
  | Iterating button_state pressed k =>
    match iteration_statements now delivered button_state pressed !! k with
    | None => mkSystem (world s) (listener s) Sampling (plotter s)
    | Some statement =>
      match statement (world s) with
      | Done w' =>
        mkSystem w' (listener s)
          (if decide (S k < length (iteration_statements now delivered button_state pressed))%nat
           then Iterating button_state pressed (S k) else Sampling)
          (plotter s)
      | Raised e w' => mkSystem w' (listener s) (ButtonEnded (Died e)) (plotter s)
      end
    end
  | ButtonEnded _ => s
  end.

Definition plotter_step (s : System) : System :=
  let again :=
    if STOP_THREADS (globals (world s)) then PlotterEnded else Showing in
  match plotter s with
  | Showing =>
    if RESET_REQUEST (globals (world s))
    then mkSystem (world s) (listener s) (button s) Clearing
    else mkSystem (world s) (listener s) (button s) again
  | Clearing =>
    mkSystem (with_globals (set_MASTER_DURATION_TRACK []) (world s))
      (listener s) (button s) again
  | PlotterEnded => s
  end.

Definition step (s : System) (a : action) : System :=
  match a with
  | Arrive payload address =>
    mkSystem (arrive payload address (world s)) (listener s) (button s) (plotter s)
  | Listen now => listener_step now s
  | Button now delivered level => button_step now delivered level s
  | Plotter => plotter_step s
  end.

Definition run (history : list action) (s : System) : System := foldl step s history.

(** The main block creates the first log file before it starts the threads
    (line 252). *)
Definition started (t0 : Time) : World := get_new_log_file t0 initial_world.

(** The threads as they start: each at the top of its loop. *)
Definition boot (t0 : Time) : System := mkSystem (started t0) Testing Sampling Showing.



(** The request flag is up while the button monitor is between the first
    and the last statement of [reset_system], and after it died there. *)
Definition resetting (b : button_at) : bool :=
  match b with
  | Iterating _ true k => (3 <=? k)%nat && (k <=? 11)%nat
  | ButtonEnded (Died _) => true
  | _ => false
  end.

(** ** The message grammar, as the specification words it

    A payload is a message when it decodes, begins with the start marker,
    ends with the end marker, and its interior has exactly one separator;
    the message is accepted when, moreover, the part after the separator
    reads as an integer.  The id before the separator may be empty: the
    listener has no check for that. *)

(** Cut at the first separator. *)
Fixpoint cut (sep : N) (s : text) : option (text * text) :=
  match s with
  | [] => None
  | c :: s' =>
    if (c =? sep)%N then Some ([], s')
    else match cut sep s' with
         | Some (a, b) => Some (c :: a, b)
         | None => None
         end
  end.

Definition exactly_one (sep : N) (s : text) : option (text * text) :=
  match cut sep s with
  | Some (a, b) => if Str.contains sep b then None else Some (a, b)
  | None => None
  end.

Definition fields (message : bytes) : option (text * text) :=
  match Utf8.decode message with
  | Some t => if framed t then exactly_one comma (interior t) else None
  | None => None
  end.

Definition accepted (message : bytes) : option (text * Z) :=
  match fields message with
  | Some (swarm_id, analog_reading) =>
    match PyInt.int analog_reading with
    | Some reading => Some (swarm_id, reading)
    | None => None
    end
  | None => None
  end.

(** The payloads on which the body of the loop raises: not UTF-8, or
    framed with a separator without being an accepted message. *)
Definition fatal (message : bytes) : bool :=
  match Utf8.decode message with
  | None => true
  | Some t =>
    framed t && Str.contains comma (interior t)
    && match accepted message with Some _ => false | None => true end
  end.

(** The accepted messages among those the loop gets to process: the
    script up to the first socket error or fatal payload. *)
Fixpoint accepted_messages (script : list (Time * recv)) : list (text * Z) :=
  match script with
  | [] => []
  | (_, SocketError) :: _ => []
  | (_, Received message _) :: script' =>
    match accepted message with
    | Some m => m :: accepted_messages script'
    | None => if fatal message then [] else accepted_messages script'
    end
  end.

Definition accepted_ids (script : list (Time * recv)) : list text :=
  fst <$> accepted_messages script.

(** How often [id] occurs. *)
Definition occurrences (id : text) (ids : list text) : Z :=
  Z.of_nat (length (filter (λ x, x = id) ids)).

(** The distinct ids in order of first appearance, continuing from the
    ids [seen] so far. *)
Definition first_seen_from (seen ids : list text) : list text :=
  foldl (λ acc id, if decide (id ∈ acc) then acc else acc ++ [id]) seen ids.

Definition first_seen (ids : list text) : list text := first_seen_from [] ids.

Fixpoint index_of (id : text) (l : list text) : option nat :=
  match l with
  | [] => None
  | x :: l' => if decide (id = x) then Some 0%nat else S <$> index_of id l'
  end.

(** The colour of the [k]-th distinct id: the [k]-th palette entry, the
    last one once the palette is used up. *)
Definition palette_color (k : nat) : color := default yellow (palette !! k).

(** The four store fields, as the snapshot reader sees them. *)
Definition store (g : Globals) :=
  (ANALOG_READINGS g, SWARM_COLORS g, CURRENT_MASTER g, MASTER_DURATION_TRACK g).

Definition store_empty (g : Globals) : Prop :=
  MASTER_DURATION_TRACK g = [] ∧ CURRENT_MASTER g = None
  ∧ ANALOG_READINGS g = [] ∧ SWARM_COLORS g = ∅.

(** The store updates of the accepted messages alone, in order. *)
Definition replay (messages : list (text * Z)) (g : Globals) : Globals :=
  foldl (λ g m, update_store m.1 m.2 g) g messages.

(** ** Scenarios *)

Definition id_A : text := code_points "A".
Definition id_B : text := code_points "B".
Definition sender : string := "192.168.4.17".

(** The event sequence of a completed reset. *)
Definition reset_trace : list event :=
  [ Assign_RESET_REQUEST true;
    Sendto reset_message "<broadcast>" localPort;
    Assign_SWARM_COLORS_empty;
    Assign_CURRENT_MASTER_None;
    Clear_MASTER_DURATION_TRACK;
    Clear_ANALOG_READINGS;
    Yellow_led_set_value 1;
    Sleep 3000;
    Yellow_led_set_value 0;
    Assign_RESET_REQUEST false ].

(** A node that has heard five messages of A and then three of B. *)
Definition heard_A5_B3 : World :=
  with_globals
    (λ g, (listen_for_messages
             (((λ t, (t, Received "+++A,510***" sender)) <$> [1; 2; 3; 4; 5])
              ++ ((λ t, (t, Received "+++B,720***" sender)) <$> [6; 7; 8])) g).2)
    (started 0).

(** The local part of a reset is done: the store is empty, the indicator
    was switched on, and the request flag is down again. *)
Definition reset_done_locally (w : World) : Prop :=
  store_empty (globals w)
  ∧ Yellow_led_set_value 1 ∈ effects w
  ∧ RESET_REQUEST (globals w) = false.



(** Two sessions: a message, a button press, the button released, a
    second message, a second press. *)
Definition first_session : World :=
  with_globals (λ g, (listen_for_messages [(1000000, Received "+++A,5***" sender)] g).2)
    (started 0).
Definition first_rotation : World :=
  state_of (monitor_iteration 2000000 2000000 true 1 first_session).
Definition second_rotation : World :=
  state_of
    (monitor_iteration 9000000 9000000 true 1
       (with_globals
          (λ g, (listen_for_messages [(6000000, Received "+++B,7***" sender)] g).2)
          (state_of (monitor_iteration 5100000 5100000 true 0 first_rotation)))).

(** A script with two senders of the same id, the sentinel, noise, and
    a second id in between. *)
Definition duel_script : list (Time * recv) :=
  [ (1, Received "+++A,5***" sender);
    (2, Received "+++RESET_REQUESTED***" sender);
    (3, Received "+++B,7***" sender);
    (4, Received "noise" "192.168.4.18");
    (5, Received "+++A,9***" "192.168.4.18") ].

(** Thirty-one readings, 1 to 31, each in a datagram of its own. *)
Definition reading_datagram (n : nat) : bytes :=
  String.append "+++A,"
    (String (ascii_of_nat (48 + n / 10))
       (String (ascii_of_nat (48 + n mod 10)) "***")).
(** The steps in which a datagram arrives and the listener, from the top
    of its loop, tests the flags, receives it and runs the five
    statements of the body. *)
Definition heard (payload : bytes) (now : Time) : list action :=
  Arrive payload sender :: replicate 7 (Listen now).
Definition thirty (from : nat) : list action :=
  flat_map (λ n, heard (reading_datagram n) (Z.of_nat n)) (seq from 30).

(** The plotting thread tests the flag while the button monitor is about
    to sleep in the reset (line 97); the reset runs to its end; a message
    arrives and the listener runs through the body for it. *)
Definition late_tested : System :=
  run (replicate 10 (Button 1000000 true 1) ++ [Plotter]) (boot 0).
Definition late_counted : System :=
  run (replicate 5 (Button 4200000 true 1) ++ heard "+++A,5***" 5000000) late_tested.


(** A press is read and the iteration has come to the clearing of the
    buffer (line 93). *)
Definition before_clear : list action := replicate 8 (Button 40000000 true 1).

(** A script with a message without id, two of A, one of B, and noise. *)
Definition mixed_script : list (Time * recv) :=
  [ (1, Received "+++,5***" sender);
    (2, Received "+++A,6***" sender);
    (3, Received "+++B,7***" sender);
    (4, Received "+++,8***" sender);
    (5, Received "noise" sender);
    (6, Received "+++A,9***" sender) ].

(** The colour map holds exactly the ids [seen], each with the palette
    colour of its rank. *)
Definition colors_follow (seen : list text) (colors : gmap text color) : Prop :=
  NoDup seen ∧ size colors = length seen
  ∧ ∀ id, colors !! id = palette_color <$> index_of id seen.

(** Five ids, the first of them twice. *)
Definition five_ids : list (Time * recv) :=
  [ (1, Received "+++A,5***" sender);
    (2, Received "+++B,6***" sender);
    (3, Received "+++A,7***" sender);
    (4, Received "+++C,8***" sender);
    (5, Received "+++D,9***" sender);
    (6, Received "+++E,1***" sender) ].

(** ** The frames of the plotting thread, lines 180-230

    Of [plot_graph] the two animation callbacks are kept as functions of
    the globals they read: [update_plot] computes the series that is
    drawn, the colour of the line and the thread's own [bar_data];
    [update_bar] computes the bars and the upper end of their axis. *)

Inductive plot_color := blue | swarm (c : color).

Record Plot := mkPlot {
  y_data : list Z;
  line_color : plot_color;
  bar_data : list (text * Z) }.

(** Lines 181-182 and 195: thirty zeros, a blue line, no bar data. *)
Definition initial_plot : Plot := mkPlot (replicate 30 0) blue [].

(** [SWARM_COLORS.get(sid, 'blue')]. *)
Definition color_or_blue (colors : gmap text color) (sid : text) : plot_color :=
  match colors !! sid with Some c => swarm c | None => blue end.

(** Lines 203-221.  [if CURRENT_MASTER:] holds for a string that is not
    empty; [[0] * n] is empty for a negative [n]. *)
Definition update_plot (g : Globals) (p : Plot) : Plot :=
  let y :=
    match ANALOG_READINGS g with
    | [] => replicate 30 0
    | readings => readings ++ replicate (30 - length readings) 0
    end in
  match CURRENT_MASTER g with
  | Some (c :: rest) =>
    mkPlot y (color_or_blue (SWARM_COLORS g) (c :: rest))
      (od_set (c :: rest) (od_default 0 (c :: rest) (bar_data p) + 1) (bar_data p))
  | _ => mkPlot y (line_color p) (bar_data p)
  end.

(** [max(values, default=d)]. *)
Definition py_max (d : Z) (values : list Z) : Z :=
  match values with
  | [] => d
  | v :: values' => foldl Z.max v values'
  end.

Record BarChart := mkBarChart {
  bars : list (text * Z * plot_color);
  ylim_top : Z }.

(** Lines 223-230. *)
Definition update_bar (g : Globals) : BarChart :=
  mkBarChart
    ((λ kv : text * Z, (kv.1, kv.2, color_or_blue (SWARM_COLORS g) kv.1))
       <$> MASTER_DURATION_TRACK g)
    (py_max 30 (MASTER_DURATION_TRACK g).*2).

(** ** The loop of [monitor_button], lines 163-171

    The script lists, for successive iterations, the clock readings of
    the two log functions, whether the broadcast goes through, and the
    level read from the button line. *)

Fixpoint monitor_button (script : list (Time * Time * bool * Z)) (w : World)
    : loop_exit * World :=
  if STOP_THREADS (globals w) then (Stopped, w)
  else
    match script with
    | [] => (Waiting, w)
    | (t_save, t_new, delivered, button_state) :: script' =>
      match monitor_iteration t_save t_new delivered button_state w with
      | Done w' => monitor_button script' w'
      | Raised e w' => (Died e, w')
      end
    end.

(** The iterations of a script in which every broadcast goes through. *)
Definition all_delivered (samples : list (Time * Time * Z)) : list (Time * Time * bool * Z) :=
  (λ s : Time * Time * Z, (s.1.1, s.1.2, true, s.2)) <$> samples.

(** The number of samples that read 1 right after a sample that read 0,
    [prev] being the level before the first sample. *)
Fixpoint rising_edges (prev : Z) (levels : list Z) : nat :=
  match levels with
  | [] => 0
  | b :: levels' =>
    (if decide (b = 1 ∧ prev = 0) then 1 else 0) + rising_edges b levels'
  end.

Definition is_sendto (e : event) : bool :=
  match e with Sendto _ _ _ => true | _ => false end.

(** ** What the loop writes to the log

    The raw lines of a script in the order they are appended, each with
    the address it is filed under: one line for every payload with
    fields, up to the point where the loop ends. *)
Fixpoint logged (script : list (Time * recv)) : list (string * log_entry) :=
  match script with
  | [] => []
  | (_, SocketError) :: _ => []
  | (now, Received message address) :: script' =>
    match fields message with
    | Some (swarm_id, analog_reading) =>
      (address, mkEntry now swarm_id analog_reading)
      :: match PyInt.int analog_reading with
         | Some _ => logged script'
         | None => []
         end
    | None => if fatal message then [] else logged script'
    end
  end.

(** The lines filed under [ip]. *)
Definition lines_of (ip : string) (lines : list (string * log_entry)) : list log_entry :=
  snd <$> filter (λ x, x.1 = ip) lines.

(** The readings of the accepted messages, oldest first. *)
Definition accepted_readings (script : list (Time * recv)) : list Z :=
  snd <$> accepted_messages script.

(** The last [n] items. *)
Definition last_n {A} (n : nat) (l : list A) : list A := drop (length l - n) l.

(** Scripts for the button: pressed and held for three samples, released,
    pressed again. *)
Definition held_then_pressed : list (Time * Time * Z) :=
  [ (1000000, 1000000, 1); (4200000, 4200000, 1); (4300000, 4300000, 1);
    (4400000, 4400000, 0); (4500000, 4500000, 1) ].

(** Thirty-two readings, 1 to 32, as a script of the listener. *)
Definition thirty_two : list (Time * recv) :=
  (λ n, (Z.of_nat n, Received (reading_datagram n) sender)) <$> seq 1 32.

(** The number of datagrams sent. *)
Definition sends (es : list event) : nat := length (filter (λ e, is_sendto e = true) es).

(** ** Valid messages, by the grammar alone

    The message of the specification, written without any of the
    listener's functions: the decoded payload is the start marker, a
    non-empty id, one separator, a reading, the end marker; neither the
    id nor the reading holds a separator; the reading reads as an
    integer. *)

Definition spec_start : text := code_points "+++".
Definition spec_end : text := code_points "***".
Definition spec_separator : N := 44%N.

Fixpoint strip_prefix (p t : text) : option text :=
  match p, t with
  | [], _ => Some t
  | c :: p', d :: t' => if (c =? d)%N then strip_prefix p' t' else None
  | _ :: _, [] => None
  end.

Definition strip_suffix (p t : text) : option text :=
  match strip_prefix (rev p) (rev t) with
  | Some r => Some (rev r)
  | None => None
  end.

Definition valid_message (message : bytes) : option (text * Z) :=
  match Utf8.decode message with
  | None => None
  | Some t =>
    match strip_prefix spec_start t with
    | None => None
    | Some t' =>
      match strip_suffix spec_end t' with
      | None => None
      | Some body =>
        match cut spec_separator body with
        | None => None
        | Some (swarm_id, reading) =>
          match cut spec_separator reading, swarm_id with
          | Some _, _ => None
          | None, [] => None
          | None, _ :: _ =>
            match PyInt.int reading with
            | Some r => Some (swarm_id, r)
            | None => None
            end
          end
        end
      end
    end
  end.

(** The ids of the valid messages of a script, in order. *)
Fixpoint valid_ids (script : list (Time * recv)) : list text :=
  match script with
  | [] => []
  | (_, Received message _) :: script' =>
    match valid_message message with
    | Some (swarm_id, _) => swarm_id :: valid_ids script'
    | None => valid_ids script'
    end
  | (_, SocketError) :: script' => valid_ids script'
  end.

(** What one statement of the listener's body does to the globals. *)
Inductive listener_write : Globals → Globals → Prop :=
| listener_nothing g : listener_write g g
| listener_log now ip swarm_id analog_reading g :
    listener_write g (log_raw now ip swarm_id analog_reading g)
| listener_reading reading g :
    listener_write g (set_ANALOG_READINGS (deque_append reading (ANALOG_READINGS g)) g)
| listener_color swarm_id g :
    listener_write g (set_SWARM_COLORS (assign_color swarm_id (SWARM_COLORS g)) g)
| listener_master swarm_id g :
    listener_write g (set_CURRENT_MASTER (Some swarm_id) g)
| listener_duration swarm_id g :
    listener_write g
      (set_MASTER_DURATION_TRACK
         (od_set swarm_id (od_default 0 swarm_id (MASTER_DURATION_TRACK g) + 1)
            (MASTER_DURATION_TRACK g)) g).

(** What one statement of an iteration of the button monitor does to the
    globals. *)
Inductive button_write : Globals → Globals → Prop :=
| button_nothing g : button_write g g
| button_log_file name g : button_write g (set_LOG_FILE (Some name) g)
| button_flag b g : button_write g (set_RESET_REQUEST b g)
| button_clear_colors g : button_write g (set_SWARM_COLORS ∅ g)
| button_clear_master g : button_write g (set_CURRENT_MASTER None g)
| button_clear_durations g : button_write g (set_MASTER_DURATION_TRACK [] g)
| button_clear_readings g : button_write g (set_ANALOG_READINGS [] g)
| button_level b g : button_write g (set_PREV_BUTTON_STATE b g).

(** * Properties *)

(** ** Ordered dictionaries *)

Section OrderedDictFacts.
Context {K V : Type} `{EqDecision K}.
Implicit Types (k : K) (v : V) (d : list (K * V)).

Lemma od_get_set_eq k v d : od_get k (od_set k v d) = Some v.
Proof.
  induction d as [|[k' v'] d IH]; simpl.
  - by rewrite decide_True.
  - destruct (decide (k = k')) as [->|Hne]; simpl.
    + by rewrite decide_True.
    + by rewrite decide_False.
Qed.

Lemma od_get_set_ne k k' v d : k ≠ k' → od_get k' (od_set k v d) = od_get k' d.
Proof.
  intros Hne. induction d as [|[k0 v0] d IH]; simpl.
  - rewrite decide_False; [done | congruence].
  - destruct (decide (k = k0)) as [->|Hk]; simpl.
    + rewrite !decide_False; [done | congruence | congruence].
    + destruct (decide (k' = k0)); [done | apply IH].
Qed.

Lemma od_default_set_eq dflt k v d : od_default dflt k (od_set k v d) = v.
Proof. unfold od_default. by rewrite od_get_set_eq. Qed.

Lemma od_default_set_ne dflt k k' v d :
  k ≠ k' → od_default dflt k' (od_set k v d) = od_default dflt k' d.
Proof. intros. unfold od_default. by rewrite od_get_set_ne. Qed.
End OrderedDictFacts.

(** ** Splitting at the separator *)

Lemma contains_cut sep s :
  Str.contains sep s = match cut sep s with Some _ => true | None => false end.
Proof.
  induction s as [|c s IH]; simpl; [done|].
  rewrite N.eqb_sym. destruct (c =? sep)%N; simpl; [done|].
  rewrite IH. by destruct (cut sep s) as [[a b]|].
Qed.

Lemma split_cut sep s :
  Str.split sep s =
    match cut sep s with
    | Some (a, b) => a :: Str.split sep b
    | None => [s]
    end.
Proof.
  induction s as [|c s IH]; simpl; [done|].
  destruct (c =? sep)%N; [done|].
  rewrite IH. by destruct (cut sep s) as [[a b]|].
Qed.

Lemma split_nonempty sep s : Str.split sep s ≠ [].
Proof. rewrite split_cut. by destruct (cut sep s) as [[a b]|]. Qed.

(** Unpacking the split into two names succeeds exactly when there is
    one separator. *)
Lemma exactly_one_split sep s :
  exactly_one sep s =
    match Str.split sep s with
    | [a; b] => Some (a, b)
    | _ => None
    end.
Proof.
  unfold exactly_one. rewrite split_cut.
  destruct (cut sep s) as [[a b]|]; [|done].
  rewrite contains_cut, (split_cut sep b).
  destruct (cut sep b) as [[a' b']|]; [|done].
  pose proof (split_nonempty sep b'). by destruct (Str.split sep b').
Qed.

Lemma exactly_one_contains sep s a b :
  exactly_one sep s = Some (a, b) → Str.contains sep s = true.
Proof.
  unfold exactly_one. rewrite contains_cut.
  by destruct (cut sep s) as [[a' b']|].
Qed.

Lemma no_separator_not_one sep s :
  Str.contains sep s = false → exactly_one sep s = None.
Proof.
  intros H. destruct (exactly_one sep s) as [[a b]|] eqn:E; [|done].
  apply exactly_one_contains in E. congruence.
Qed.

(** The comparison of line 133 is made only on data that contain the
    separator, and the sentinel contains none. *)
Lemma separator_excludes_sentinel data :
  Str.contains comma data = true → data ≠ RESET_REQUESTED.
Proof. intros H ->. vm_compute in H. discriminate. Qed.

(** ** The grammar of a message

    [fields] holds of exactly the payloads that decode to the start
    marker, an id without separator, one separator, a reading without
    separator, and the end marker. *)

Lemma startswith_spec s p : Str.startswith s p = true ↔ ∃ s', s = p ++ s'.
Proof.
  revert s. induction p as [|c p IH]; intros s.
  - destruct s; simpl; split; eauto.
  - destruct s as [|d s]; simpl.
    + split; [done | by intros [s' ?]].
    + rewrite andb_true_iff, N.eqb_eq, IH. split.
      * intros [-> [s' ->]]. by exists s'.
      * intros [s' [= -> ->]]. split; [done | by exists s'].
Qed.

Lemma endswith_spec s p : Str.endswith s p = true ↔ ∃ s', s = s' ++ p.
Proof.
  unfold Str.endswith. rewrite startswith_spec. split.
  - intros [u Hu]. exists (rev u).
    apply (f_equal (@rev N)) in Hu. by rewrite rev_involutive, rev_app_distr, rev_involutive in Hu.
  - intros [u ->]. exists (rev u). by rewrite rev_app_distr.
Qed.

Lemma framed_spec t : framed t = true ↔ ∃ mid, t = RPi_startBit ++ mid ++ RPi_endBit.
Proof.
  unfold framed. rewrite andb_true_iff, startswith_spec, endswith_spec. split.
  - intros [[t' ->] [u Hu]]. change RPi_startBit with [43; 43; 43]%N in *.
    change RPi_endBit with [42; 42; 42]%N in *.
    destruct u as [|a [|b [|c mid]]]; try discriminate Hu.
    exists mid. injection Hu as _ _ _ ->. done.
  - intros [mid ->]. split; [by eexists|].
    exists (RPi_startBit ++ mid). by rewrite <- app_assoc.
Qed.

Lemma interior_framed mid : interior (RPi_startBit ++ mid ++ RPi_endBit) = mid.
Proof.
  unfold interior, Str.slice. rewrite drop_app_length.
  rewrite !length_app.
  replace (length RPi_startBit + (length mid + length RPi_endBit)
           - length RPi_endBit - length RPi_startBit)%nat with (length mid) by lia.
  apply take_app_length.
Qed.

Lemma cut_spec sep s a b :
  cut sep s = Some (a, b) ↔ s = a ++ sep :: b ∧ Str.contains sep a = false.
Proof.
  revert a. induction s as [|c s IH]; intros a; simpl.
  - split; [done | intros [H _]; by destruct a].
  - destruct (c =? sep)%N eqn:E.
    + apply N.eqb_eq in E as ->. split.
      * by intros [= <- <-].
      * intros [H Ha]. destruct a as [|d a]; [by injection H as -> |].
        injection H as -> _. simpl in Ha. by rewrite N.eqb_refl in Ha.
    + split.
      * destruct (cut sep s) as [[a' b']|]; [|done]. intros [= <- <-].
        destruct (proj1 (IH a') eq_refl) as [-> Ha]. simpl.
        by rewrite (N.eqb_sym sep c), E.
      * intros [H Ha]. destruct a as [|d a].
        { injection H as -> _. by rewrite N.eqb_refl in E. }
        injection H as -> H. simpl in Ha. apply orb_false_iff in Ha as [_ Ha].
        by rewrite (proj2 (IH a) (conj H Ha)).
Qed.

Lemma exactly_one_spec sep s a b :
  exactly_one sep s = Some (a, b)
  ↔ s = a ++ sep :: b ∧ Str.contains sep a = false ∧ Str.contains sep b = false.
Proof.
  unfold exactly_one. split.
  - destruct (cut sep s) as [[a' b']|] eqn:Hc; [|done].
    destruct (Str.contains sep b') eqn:Hb; [done|]. intros [= <- <-].
    by apply cut_spec in Hc as [-> ?].
  - intros (H & Ha & Hb). rewrite (proj2 (cut_spec sep s a b) (conj H Ha)). by rewrite Hb.
Qed.

Theorem fields_grammar m id rd :
  fields m = Some (id, rd)
  ↔ Utf8.decode m = Some (RPi_startBit ++ id ++ comma :: rd ++ RPi_endBit)
    ∧ Str.contains comma id = false ∧ Str.contains comma rd = false.
Proof.
  unfold fields. split.
  - destruct (Utf8.decode m) as [t|]; [|done].
    destruct (framed t) eqn:Hf; [|done].
    apply framed_spec in Hf as [mid ->]. rewrite interior_framed.
    intros (-> & Ha & Hb)%exactly_one_spec. by rewrite <- app_assoc.
  - intros (-> & Ha & Hb).
    replace (RPi_startBit ++ id ++ comma :: rd ++ RPi_endBit)
      with (RPi_startBit ++ (id ++ comma :: rd) ++ RPi_endBit)
      by (by rewrite <- app_assoc).
    rewrite (proj2 (framed_spec _)) by by eexists.
    rewrite interior_framed. by apply exactly_one_spec.
Qed.


(** ** What the body of the loop does with one datagram *)

Lemma process_message_undecodable now m ip g :
  Utf8.decode m = None → process_message now m ip g = Raised UnicodeDecodeError g.
Proof. intros H. unfold process_message. by rewrite H. Qed.

Lemma process_message_fields now m ip g id rd :
  fields m = Some (id, rd) →
  process_message now m ip g =
    match PyInt.int rd with
    | Some r => Done (update_store id r (log_raw now ip id rd g))
    | None => Raised ValueError (log_raw now ip id rd g)
    end.
Proof.
  unfold fields, process_message.
  destruct (Utf8.decode m) as [t|]; [|done].
  destruct (framed t); [|done]. intros H.
  rewrite (exactly_one_contains _ _ _ _ H).
  pose proof (separator_excludes_sentinel _ (exactly_one_contains _ _ _ _ H)) as Hs.
  rewrite exactly_one_split in H.
  destruct (Str.split comma (interior t)) as [|a [|b [|c l]]]; try done.
  injection H as -> ->. by rewrite decide_False.
Qed.

Lemma process_message_no_fields now m ip g t :
  Utf8.decode m = Some t → fields m = None →
  process_message now m ip g =
    if framed t && Str.contains comma (interior t) then Raised ValueError g else Done g.
Proof.
  unfold fields, process_message. intros ->.
  destruct (framed t); [|done]. simpl.
  destruct (Str.contains comma (interior t)); [|done].
  rewrite exactly_one_split.
  by destruct (Str.split comma (interior t)) as [|a [|b [|c l]]].
Qed.

Lemma process_message_accepted now m ip g id r :
  accepted m = Some (id, r) →
  ∃ rd, fields m = Some (id, rd) ∧ PyInt.int rd = Some r
        ∧ process_message now m ip g = Done (update_store id r (log_raw now ip id rd g)).
Proof.
  unfold accepted. destruct (fields m) as [[id' rd]|] eqn:Hf; [|done].
  destruct (PyInt.int rd) as [r'|] eqn:Hi; [|done].
  intros [= -> ->]. exists rd. split_and!; [done..|].
  by rewrite (process_message_fields _ _ _ _ _ _ Hf), Hi.
Qed.

Lemma fatal_fields m id rd :
  fields m = Some (id, rd) →
  fatal m = match PyInt.int rd with Some _ => false | None => true end.
Proof.
  unfold fatal, accepted. intros Hf. rewrite Hf. revert Hf. unfold fields.
  destruct (Utf8.decode m) as [t|]; [|done].
  destruct (framed t); [|done]. intros Hf.
  rewrite (exactly_one_contains _ _ _ _ Hf). simpl.
  by destruct (PyInt.int rd).
Qed.

Lemma fatal_no_fields m t :
  Utf8.decode m = Some t → fields m = None →
  fatal m = framed t && Str.contains comma (interior t).
Proof.
  unfold fatal, accepted. intros Hd Hf. rewrite Hd, Hf. by rewrite andb_true_r.
Qed.

Lemma fatal_undecodable m : Utf8.decode m = None → fatal m = true.
Proof. unfold fatal. by intros ->. Qed.

Lemma process_message_not_accepted now m ip g :
  accepted m = None →
  store (state_of (process_message now m ip g)) = store g
  ∧ completes (process_message now m ip g) = negb (fatal m).
Proof.
  unfold accepted. intros Ha.
  destruct (fields m) as [[id rd]|] eqn:Hf.
  - rewrite (process_message_fields _ _ _ _ _ _ Hf), (fatal_fields _ _ _ Hf).
    by destruct (PyInt.int rd).
  - destruct (Utf8.decode m) as [t|] eqn:Hd.
    + rewrite (process_message_no_fields _ _ _ _ _ Hd Hf), (fatal_no_fields _ _ Hd Hf).
      by destruct (framed t && Str.contains comma (interior t)).
    + by rewrite (process_message_undecodable _ _ _ _ Hd), (fatal_undecodable _ Hd).
Qed.

(** ** The store after the loop *)

Lemma store_update_store id r g :
  store (update_store id r g) =
    (deque_append r (ANALOG_READINGS g), assign_color id (SWARM_COLORS g), Some id,
     od_set id (od_default 0 id (MASTER_DURATION_TRACK g) + 1) (MASTER_DURATION_TRACK g)).
Proof.
  unfold update_store, store.
  destruct (decide (CURRENT_MASTER _ = Some id)) as [e|e]; simpl in *; [by rewrite e | done].
Qed.

Lemma update_store_readings id r g :
  ANALOG_READINGS (update_store id r g) = deque_append r (ANALOG_READINGS g).
Proof. pose proof (store_update_store id r g) as H. unfold store in H. congruence. Qed.

Lemma update_store_colors id r g :
  SWARM_COLORS (update_store id r g) = assign_color id (SWARM_COLORS g).
Proof. pose proof (store_update_store id r g) as H. unfold store in H. congruence. Qed.

Lemma update_store_master id r g : CURRENT_MASTER (update_store id r g) = Some id.
Proof. pose proof (store_update_store id r g) as H. unfold store in H. congruence. Qed.

Lemma update_store_durations id r g :
  MASTER_DURATION_TRACK (update_store id r g) =
    od_set id (od_default 0 id (MASTER_DURATION_TRACK g) + 1) (MASTER_DURATION_TRACK g).
Proof. pose proof (store_update_store id r g) as H. unfold store in H. congruence. Qed.

Lemma replay_cons id r ms g : replay ((id, r) :: ms) g = replay ms (update_store id r g).
Proof. done. Qed.

Lemma store_update_store_proper id r g1 g2 :
  store g1 = store g2 → store (update_store id r g1) = store (update_store id r g2).
Proof.
  rewrite !store_update_store. unfold store.
  intros [= H1 H2 _ H4]. by rewrite H1, H2, H4.
Qed.

Lemma store_replay_proper ms g1 g2 :
  store g1 = store g2 → store (replay ms g1) = store (replay ms g2).
Proof.
  revert g1 g2. induction ms as [|m ms IH]; intros g1 g2 H; [done|].
  apply IH. by apply store_update_store_proper.
Qed.

Lemma update_store_flags id r g :
  STOP_THREADS (update_store id r g) = STOP_THREADS g
  ∧ RESET_REQUEST (update_store id r g) = RESET_REQUEST g.
Proof. unfold update_store. by destruct (decide (CURRENT_MASTER _ = Some id)). Qed.

Lemma process_message_flags now m ip g :
  STOP_THREADS (state_of (process_message now m ip g)) = STOP_THREADS g
  ∧ RESET_REQUEST (state_of (process_message now m ip g)) = RESET_REQUEST g.
Proof.
  destruct (fields m) as [[id rd]|] eqn:Hf.
  - rewrite (process_message_fields _ _ _ _ _ _ Hf).
    destruct (PyInt.int rd) as [r|]; [|done].
    exact (update_store_flags id r (log_raw now ip id rd g)).
  - destruct (Utf8.decode m) as [t|] eqn:Hd.
    + rewrite (process_message_no_fields _ _ _ _ _ Hd Hf).
      by destruct (framed t && Str.contains comma (interior t)).
    + by rewrite (process_message_undecodable _ _ _ _ Hd).
Qed.

Lemma listen_received now m a script g :
  STOP_THREADS g = false → RESET_REQUEST g = false →
  listen_for_messages ((now, Received m a) :: script) g =
    match process_message now m a g with
    | Done g' => listen_for_messages script g'
    | Raised e g' => (Died e, g')
    end.
Proof. intros Hs Hr. simpl. by rewrite Hs, Hr. Qed.

Lemma listen_paused script g :
  STOP_THREADS g = false → RESET_REQUEST g = true →
  listen_for_messages script g = (Spinning, g).
Proof. intros Hs Hr. destruct script; simpl; by rewrite Hs, Hr. Qed.

(** The loop leaves the store as the accepted messages alone would. *)
Lemma loop_store script g :
  STOP_THREADS g = false → RESET_REQUEST g = false →
  store (listen_for_messages script g).2 = store (replay (accepted_messages script) g).
Proof.
  revert g. induction script as [|[now [m a|]] script IH]; intros g Hs Hr.
  - simpl. by rewrite Hs, Hr.
  - rewrite (listen_received _ _ _ _ _ Hs Hr). simpl accepted_messages.
    pose proof (process_message_flags now m a g) as [Hs' Hr'].
    destruct (accepted m) as [[id r]|] eqn:Ha.
    + destruct (process_message_accepted now m a g id r Ha) as (rd & _ & _ & Hp).
      rewrite Hp in *. cbn [state_of] in Hs', Hr'. rewrite IH by congruence.
      cbn [replay foldl fst snd]. by apply store_replay_proper, store_update_store_proper.
    + destruct (process_message_not_accepted now m a g Ha) as [Hst Hc].
      destruct (process_message now m a g) as [g'|e g']; cbn [state_of completes] in *.
      * symmetry in Hc. apply negb_true_iff in Hc. rewrite Hc.
        rewrite IH by congruence. by apply store_replay_proper.
      * symmetry in Hc. apply negb_false_iff in Hc. by rewrite Hc.
  - simpl. by rewrite Hs, Hr.
Qed.

(** ** Master durations and the current master *)

Lemma occurrences_cons id x ids :
  occurrences id (x :: ids) = (if decide (x = id) then 1 else 0) + occurrences id ids.
Proof.
  unfold occurrences. rewrite filter_cons.
  destruct (decide (x = id)); simpl length; lia.
Qed.

Lemma replay_durations ms g id :
  od_default 0 id (MASTER_DURATION_TRACK (replay ms g)) =
    od_default 0 id (MASTER_DURATION_TRACK g) + occurrences id ms.*1.
Proof.
  revert g. induction ms as [|[x r] ms IH]; intros g.
  - unfold occurrences. simpl. lia.
  - rewrite replay_cons, IH, fmap_cons, occurrences_cons, update_store_durations.
    cbn [fst]. destruct (decide (x = id)) as [->|Hne].
    + rewrite od_default_set_eq. lia.
    + rewrite od_default_set_ne by done. lia.
Qed.

Lemma replay_master ms g :
  CURRENT_MASTER (replay ms g) =
    match last ms.*1 with Some x => Some x | None => CURRENT_MASTER g end.
Proof.
  revert g. induction ms as [|[x r] ms IH]; intros g; [done|].
  rewrite replay_cons, IH, fmap_cons, last_cons, update_store_master.
  by destruct (last ms.*1).
Qed.

Lemma process_message_master now m ip g :
  CURRENT_MASTER (state_of (process_message now m ip g))
    = match accepted m with Some (x, _) => Some x | None => CURRENT_MASTER g end.
Proof.
  destruct (accepted m) as [[x r]|] eqn:Ha.
  - destruct (process_message_accepted now m ip g x r Ha) as (rd & _ & _ & ->).
    apply update_store_master.
  - destruct (process_message_not_accepted now m ip g Ha) as [H _].
    unfold store in H. congruence.
Qed.

(** *** Valid messages and accepted ones *)








(** After a reset of the node that had heard A five times and B three
    times, the script of the duel counts A twice and leaves A the master;
    the sentinel and the noise count for nobody. *)
Example duel_counts :
  accepted_ids duel_script = [id_A; id_B; id_A]
  ∧ MASTER_DURATION_TRACK
      (listen_for_messages duel_script
         (globals (state_of (reset_system true heard_A5_B3)))).2
    = [(id_A, 2); (id_B, 1)]
  ∧ CURRENT_MASTER
      (listen_for_messages duel_script
         (globals (state_of (reset_system true heard_A5_B3)))).2 = Some id_A
  ∧ MASTER_DURATION_TRACK (globals heard_A5_B3) = [(id_A, 5); (id_B, 3)]
  ∧ CURRENT_MASTER (globals heard_A5_B3) = Some id_B.
Proof. split_and!; vm_compute; reflexivity. Qed.

(** The messages without id are accepted and counted under the empty id:
    they are no valid messages, and the table has an entry for them. *)
Example empty_id_counted :
  accepted_ids mixed_script = [[]; id_A; id_B; []; id_A]
  ∧ valid_ids mixed_script = [id_A; id_B; id_A]
  ∧ MASTER_DURATION_TRACK (listen_for_messages mixed_script initial).2
    = [([], 2); (id_A, 2); (id_B, 1)]
  ∧ (listen_for_messages mixed_script initial).1 = Waiting.
Proof. split_and!; vm_compute; reflexivity. Qed.


(** ** The reset sequence *)

Lemma reset_message_framed :
  Utf8.decode reset_message = Some (RPi_startBit ++ RESET_REQUESTED ++ RPi_endBit).
Proof. reflexivity. Qed.

Lemma exec_app body1 body2 w :
  exec (body1 ++ body2) w =
    match exec body1 w with
    | Done w' => exec body2 w'
    | Raised e w' => Raised e w'
    end.
Proof.
  revert w. induction body1 as [|s body1 IH]; intros w; simpl; [done|].
  destruct (s w); [apply IH | done].
Qed.

(** C1.  With the send going through, [reset_system] runs its statements
    in the order of the reset sequence, each on the state the previous
    one left: the flag is raised; the framed sentinel is sent once to the
    broadcast address; the store is cleared while the flag is up; the
    indicator is switched on, the thread sleeps three seconds, the
    indicator is switched off; the flag is lowered.  Whatever the store
    held before, it is empty afterwards. *)
Theorem reset_system_in_order w :
  ∃ w1 w2 w3 w4 w5,
    exec (take 1 (reset_system_body true)) w = Done w1
    ∧ exec (take 1 (drop 1 (reset_system_body true))) w1 = Done w2
    ∧ exec (take 4 (drop 2 (reset_system_body true))) w2 = Done w3
    ∧ exec (take 3 (drop 6 (reset_system_body true))) w3 = Done w4
    ∧ exec (drop 9 (reset_system_body true)) w4 = Done w5
    ∧ reset_system true w = Done w5
    ∧ globals w1 = set_RESET_REQUEST true (globals w)
    ∧ effects w1 = effects w ++ [Assign_RESET_REQUEST true]
    ∧ globals w2 = globals w1
    ∧ effects w2 = effects w1 ++ [Sendto reset_message "<broadcast>" localPort]
    ∧ Utf8.decode reset_message = Some (RPi_startBit ++ RESET_REQUESTED ++ RPi_endBit)
    ∧ RESET_REQUEST (globals w3) = true
    ∧ store_empty (globals w3)
    ∧ effects w3 = effects w2 ++ [Assign_SWARM_COLORS_empty; Assign_CURRENT_MASTER_None;
                                  Clear_MASTER_DURATION_TRACK; Clear_ANALOG_READINGS]
    ∧ globals w4 = globals w3
    ∧ effects w4 = effects w3 ++ [Yellow_led_set_value 1; Sleep 3000; Yellow_led_set_value 0]
    ∧ globals w5 = set_RESET_REQUEST false (globals w4)
    ∧ effects w5 = effects w4 ++ [Assign_RESET_REQUEST false]
    ∧ effects w5 = effects w ++ reset_trace
    ∧ store_empty (globals w5)
    ∧ RESET_REQUEST (globals w5) = false.
Proof.
  do 5 eexists. split_and!; try reflexivity;
    cbn [effects emit globals with_globals]; rewrite <- ?app_assoc; try reflexivity.
  - by repeat split.
  - by repeat split.
Qed.

(** The fields [reset_system] does not name keep their values. *)
Lemma reset_system_keeps delivered w :
  let w' := state_of (reset_system delivered w) in
  MASTER_LOG_TRACK (globals w') = MASTER_LOG_TRACK (globals w)
  ∧ LOG_FILE (globals w') = LOG_FILE (globals w)
  ∧ files w' = files w ∧ inbox w' = inbox w.
Proof. by destruct delivered. Qed.

(** C7, as the code has it.  When the send raises, the exception leaves
    [reset_system] at line 87: the flag has been raised and stays up, the
    store is as it was, nothing was sent and the indicator was not
    touched. *)
Theorem reset_send_failure_aborts w :
  ∃ w', reset_system false w = Raised OSError w'
        ∧ store (globals w') = store (globals w)
        ∧ RESET_REQUEST (globals w') = true
        ∧ effects w' = effects w ++ [Assign_RESET_REQUEST true].
Proof. eexists. by split_and!. Qed.

(** C7 fails where the send fails: on a node that has heard A and B the
    local part of the reset is not done. *)
Lemma reset_send_failure_counterexample :
  ¬ reset_done_locally (state_of (reset_system false heard_A5_B3)).
Proof. intros [[H _] _]. vm_compute in H. discriminate. Qed.

(** The button thread does not survive it either: the iteration that saw
    the press raises, with the request flag left up. *)
Lemma monitor_dies_on_send_failure t_save t_new w :
  PREV_BUTTON_STATE (globals w) = 0 →
  ∃ w', monitor_iteration t_save t_new false 1 w = Raised OSError w'
        ∧ RESET_REQUEST (globals w') = true.
Proof.
  intros H. unfold monitor_iteration. rewrite decide_True by done.
  eexists. by split.
Qed.

(** ** The reset sentinel on receipt *)

(** C4, on the code.  The framed sentinel has no separator, so the body
    of the loop leaves at line 126: nothing is logged and nothing else
    changes. *)
Theorem sentinel_dropped_unlogged now ip g :
  process_message now reset_message ip g = Done g.
Proof. reflexivity. Qed.

(** ** Malformed payloads *)

Lemma framed_false t :
  Str.startswith t RPi_startBit = false ∨ Str.endswith t RPi_endBit = false →
  framed t = false.
Proof. unfold framed. intros [-> | ->]; [done | apply andb_false_r]. Qed.

(** C2, as far as the code goes.  A payload that decodes and lacks the
    start marker or the end marker, or has no separator between them, is
    dropped: the body of the loop changes nothing and the loop goes on
    with the next datagram. *)
Theorem unframed_payload_discarded now m a script g t :
  STOP_THREADS g = false → RESET_REQUEST g = false →
  Utf8.decode m = Some t →
  Str.startswith t RPi_startBit = false ∨ Str.endswith t RPi_endBit = false
    ∨ Str.contains comma (interior t) = false →
  process_message now m a g = Done g
  ∧ listen_for_messages ((now, Received m a) :: script) g = listen_for_messages script g.
Proof.
  intros Hs Hr Hd Hbad.
  assert (process_message now m a g = Done g) as Hp.
  { unfold process_message. rewrite Hd.
    destruct Hbad as [H | [H | H]].
    - by rewrite framed_false by auto.
    - by rewrite framed_false by auto.
    - rewrite H. by destruct (framed t). }
  split; [done|]. by rewrite (listen_received _ _ _ _ _ Hs Hr), Hp.
Qed.

Lemma unframed_payload_discarded_witness :
  process_message 7 "++A,5***" sender initial = Done initial
  ∧ listen_for_messages [(7, Received "++A,5***" sender); (8, Received "+++A,5***" sender)]
      initial
    = listen_for_messages [(8, Received "+++A,5***" sender)] initial.
Proof.
  apply (unframed_payload_discarded 7 "++A,5***" sender
           [(8, Received "+++A,5***" sender)] initial (code_points "++A,5***"));
    [reflexivity | reflexivity | reflexivity | left; reflexivity].
Defined.

(** C2 fails on the other malformed payloads.  Two separators: the
    unpacking raises, the exception leaves the loop, and the well-formed
    datagram behind it is never processed.  A reading that is no integer:
    the raw line is already in the log when [int] raises.  An empty id:
    the message is processed like any other.  A payload that is not
    UTF-8 (here the single byte 255): [decode] raises. *)
Lemma malformed_payload_counterexample :
  listen_for_messages [(7, Received "+++A,B,5***" sender); (8, Received "+++A,5***" sender)]
    initial = (Died ValueError, initial)
  ∧ listen_for_messages [(7, Received (String "255" "") sender);
                         (8, Received "+++A,5***" sender)]
      initial = (Died UnicodeDecodeError, initial)
  ∧ process_message 7 "+++A,x***" sender initial
    = Raised ValueError
        (set_MASTER_LOG_TRACK [(sender, [mkEntry 7 id_A (code_points "x")])] initial)
  ∧ process_message 7 "+++,5***" sender initial
    = Done (mkGlobals 0 false false [5] {[ [] := red ]} (Some []) [([], 1)]
              [(sender, [mkEntry 7 [] (code_points "5")])] None).
Proof. split_and!; reflexivity. Qed.

(** ** The raw log line *)

Lemma update_store_log id r g :
  MASTER_LOG_TRACK (update_store id r g) = MASTER_LOG_TRACK g.
Proof. unfold update_store. by destruct (decide (CURRENT_MASTER _ = Some id)). Qed.

(** C10, as the code has it.  For a payload that passes the framing
    check and has exactly one separator, the raw line is appended to the
    sender's log before the reading is parsed: the line is there whether
    the id is empty or not, and when the reading is no integer the
    exception is raised with the line in the log and nothing else
    changed. *)
Theorem raw_line_logged_before_parsing now m ip g id rd :
  fields m = Some (id, rd) →
  MASTER_LOG_TRACK (state_of (process_message now m ip g))
    = od_set ip (od_default [] ip (MASTER_LOG_TRACK g) ++ [mkEntry now id rd])
        (MASTER_LOG_TRACK g)
  ∧ process_message now m ip g
    = match PyInt.int rd with
      | Some r => Done (update_store id r (log_raw now ip id rd g))
      | None => Raised ValueError (log_raw now ip id rd g)
      end.
Proof.
  intros Hf. rewrite (process_message_fields _ _ _ _ _ _ Hf).
  destruct (PyInt.int rd) as [r|]; [|done].
  split; [|done]. cbn [state_of]. by rewrite update_store_log.
Qed.

Lemma raw_line_logged_before_parsing_witness :
  MASTER_LOG_TRACK (state_of (process_message 7 "+++,x***" sender initial))
    = od_set sender
        (od_default [] sender (MASTER_LOG_TRACK initial) ++ [mkEntry 7 [] (code_points "x")])
        (MASTER_LOG_TRACK initial)
  ∧ process_message 7 "+++,x***" sender initial
    = match PyInt.int (code_points "x") with
      | Some r => Done (update_store [] r (log_raw 7 sender [] (code_points "x") initial))
      | None => Raised ValueError (log_raw 7 sender [] (code_points "x") initial)
      end.
Proof.
  apply (raw_line_logged_before_parsing 7 "+++,x***" sender initial [] (code_points "x")).
  reflexivity.
Defined.

(** C10 fails with more than one separator: the payload passes the
    framing check and contains the separator, but the unpacking raises
    before the line is built, and the log stays empty. *)
Lemma raw_line_counterexample :
  Utf8.decode "+++A,B,5***" = Some (code_points "+++A,B,5***")
  ∧ framed (code_points "+++A,B,5***") = true
  ∧ Str.contains comma (interior (code_points "+++A,B,5***")) = true
  ∧ process_message 7 "+++A,B,5***" sender initial = Raised ValueError initial
  ∧ MASTER_LOG_TRACK (state_of (process_message 7 "+++A,B,5***" sender initial)) = [].
Proof. split_and!; reflexivity. Qed.

(** ** Log files *)

(** C6, as the code has it.  Saving writes the session's file with all
    raw lines that are in memory, so no line appended before the rotation
    is missing from it; neither saving, nor the new file name, nor the
    reset that follows removes a line from memory, so the lines stay for
    the next session; the new session has the name derived from the
    clock. *)
Theorem flush_rotate_keeps_entries t_save t_new delivered w name :
  LOG_FILE (globals w) = Some name →
  od_get name (files (get_new_log_file t_new (save_current_logs t_save w)))
    = Some (mkLogFile t_save (MASTER_DURATION_TRACK (globals w))
              (MASTER_LOG_TRACK (globals w)))
  ∧ MASTER_LOG_TRACK (globals (get_new_log_file t_new (save_current_logs t_save w)))
    = MASTER_LOG_TRACK (globals w)
  ∧ LOG_FILE (globals (get_new_log_file t_new (save_current_logs t_save w)))
    = Some (log_file_name t_new)
  ∧ MASTER_LOG_TRACK
      (globals (state_of (reset_system delivered
                            (get_new_log_file t_new (save_current_logs t_save w)))))
    = MASTER_LOG_TRACK (globals w).
Proof.
  intros Hn. unfold save_current_logs. rewrite Hn. split_and!.
  - cbn [get_new_log_file with_globals files set_files]. apply od_get_set_eq.
  - done.
  - done.
  - by destruct (reset_system_keeps delivered
                   (get_new_log_file t_new
                      (set_files
                         (od_set name
                            (mkLogFile t_save (MASTER_DURATION_TRACK (globals w))
                               (MASTER_LOG_TRACK (globals w))) (files w)) w))) as [-> _].
Qed.

Lemma flush_rotate_keeps_entries_witness :
  od_get 0 (files (get_new_log_file 2000000 (save_current_logs 2000000 first_session)))
    = Some (mkLogFile 2000000 (MASTER_DURATION_TRACK (globals first_session))
              (MASTER_LOG_TRACK (globals first_session)))
  ∧ MASTER_LOG_TRACK (globals (get_new_log_file 2000000 (save_current_logs 2000000 first_session)))
    = MASTER_LOG_TRACK (globals first_session)
  ∧ LOG_FILE (globals (get_new_log_file 2000000 (save_current_logs 2000000 first_session)))
    = Some (log_file_name 2000000)
  ∧ MASTER_LOG_TRACK
      (globals (state_of (reset_system true
                            (get_new_log_file 2000000
                               (save_current_logs 2000000 first_session)))))
    = MASTER_LOG_TRACK (globals first_session).
Proof.
  apply (flush_rotate_keeps_entries 2000000 2000000 true first_session 0). reflexivity.
Defined.

(** C6 fails: after the first save and rotation the raw lines of the
    first session are still in memory, and the file of the second session
    holds the first session's line again, before its own. *)
Lemma log_rotation_counterexample :
  MASTER_LOG_TRACK (globals first_rotation)
    = [(sender, [mkEntry 1000000 id_A (code_points "5")])]
  ∧ LOG_FILE (globals first_rotation) = Some 2
  ∧ raw <$> od_get 0 (files second_rotation)
    = Some [(sender, [mkEntry 1000000 id_A (code_points "5")])]
  ∧ raw <$> od_get 2 (files second_rotation)
    = Some [(sender, [mkEntry 1000000 id_A (code_points "5");
                      mkEntry 6000000 id_B (code_points "7")])].
Proof. split_and!; reflexivity. Qed.

(** ** The reading buffer *)

Lemma deque_append_length x d :
  (length d ≤ maxlen → length (deque_append x d) ≤ maxlen)%nat.
Proof.
  unfold deque_append, maxlen. intros H.
  destruct (decide (length d < 30)%nat); rewrite length_app, ?length_drop; simpl; lia.
Qed.


Lemma process_message_readings now m ip g :
  ANALOG_READINGS (state_of (process_message now m ip g))
    = match accepted m with
      | Some (_, r) => deque_append r (ANALOG_READINGS g)
      | None => ANALOG_READINGS g
      end.
Proof.
  destruct (accepted m) as [[x r]|] eqn:Ha.
  - destruct (process_message_accepted now m ip g x r Ha) as (rd & _ & _ & ->).
    exact (update_store_readings x r (log_raw now ip x rd g)).
  - destruct (process_message_not_accepted now m ip g Ha) as [H _].
    unfold store in H. congruence.
Qed.

(** *** The threads, statement by statement *)


Lemma exec_iteration now delivered button_state w :
  exec (iteration_statements now delivered button_state
          (bool_decide (button_state = 1 ∧ PREV_BUTTON_STATE (globals w) = 0))) w
  = monitor_iteration now now delivered button_state w.
Proof.
  unfold iteration_statements, monitor_iteration.
  destruct (decide (button_state = 1 ∧ PREV_BUTTON_STATE (globals w) = 0)) as [H|H].
  - rewrite bool_decide_eq_true_2 by done. cbn [app exec].
    rewrite exec_app. unfold reset_system.
    by destruct (exec (reset_system_body delivered) _).
  - by rewrite bool_decide_eq_false_2 by done.
Qed.

Lemma body_statement_write m ip k (statement : body_stmt) now g :
  body_statements m ip !! k = Some statement →
  listener_write g (state_of (statement now g)).
Proof.
  unfold body_statements.
  destruct (Utf8.decode m) as [t|].
  - destruct (framed t); [|done]. cbn zeta.
    destruct (Str.contains comma (interior t)); [|done].
    destruct (Str.split comma (interior t)) as [|a [|b [|c l]]].
    4: { destruct k as [|[|k]]; [|done..]. intros [= <-]. constructor. }
    1, 2: destruct k as [|[|k]]; [|done..]; intros [= <-]; constructor.
    destruct k as [|k]; [intros [= <-]; constructor|]. cbn [lookup list_lookup].
    destruct (decide (interior t = RESET_REQUESTED)); [done|].
    destruct (PyInt.int b) as [r|].
    + destruct k as [|[|[|[|k]]]]; try done; intros [= <-]; cbn [state_of];
        try constructor.
      unfold assign_master. destruct (decide _); constructor.
    + destruct k as [|[|k]]; [|done..]. intros [= <-]. constructor.
  - destruct k as [|[|k]]; [|done..]. intros [= <-]. constructor.
Qed.

(** Case analysis on the position [k] in a list of [n] statements. *)
Ltac index_cases n k tac :=
  lazymatch n with
  | O => idtac
  | S ?n' => destruct k as [|k]; [tac | index_cases n' k tac]
  end.

Ltac button_write_case :=
  split;
  [ first [ apply button_nothing | apply button_log_file | apply button_flag
          | apply button_clear_colors | apply button_clear_master
          | apply button_clear_durations | apply button_clear_readings
          | apply button_level ]
  | reflexivity ].

Lemma iteration_statement_write now delivered button_state pressed k (statement : stmt) w :
  iteration_statements now delivered button_state pressed !! k = Some statement →
  button_write (globals w) (globals (state_of (statement w)))
  ∧ inbox (state_of (statement w)) = inbox w.
Proof.
  unfold iteration_statements. destruct pressed; cbn [app reset_system_body].
  - index_cases 14%nat k ltac:(intros [= <-]); try done; try button_write_case.
    + unfold save_current_logs. destruct (LOG_FILE (globals w)); button_write_case.
    + unfold sendto. destruct delivered; button_write_case.
  - index_cases 2%nat k ltac:(intros [= <-]); try done; button_write_case.
Qed.

(** What a step can do to the globals and to the queue of the socket. *)
Lemma step_write s a :
  (globals (world (step s a)) = globals (world s)
   ∨ (∃ now, a = Listen now)
     ∧ listener_write (globals (world s)) (globals (world (step s a)))
   ∨ (∃ now delivered level, a = Button now delivered level)
     ∧ button_write (globals (world s)) (globals (world (step s a)))
   ∨ a = Plotter
     ∧ globals (world (step s a)) = set_MASTER_DURATION_TRACK [] (globals (world s))).
Proof.
  destruct a as [payload address|now|now delivered level|]; cbn [step].
  - by left.
  - unfold listener_step. destruct (listener s) as [| |m ip k|how].
    + destruct (STOP_THREADS _); [by left|]. destruct (RESET_REQUEST _); by left.
    + destruct (inbox (world s)) as [|[payload address] queued]; by left.
    + destruct (body_statements m ip !! k) as [statement|] eqn:Hk; [|by left].
      right; left. split; [by eexists|].
      pose proof (body_statement_write m ip k statement now (globals (world s)) Hk) as Hw.
      by destruct (statement now (globals (world s))).
    + by left.
  - unfold button_step. destruct (button s) as [|b pressed k|how].
    + destruct (STOP_THREADS _); by left.
    + destruct (iteration_statements now delivered b pressed !! k) as [statement|] eqn:Hk;
        [|by left].
      right; right; left. split; [by eexists _, _, _|].
      destruct (iteration_statement_write now delivered b pressed k statement (world s) Hk)
        as [Hw _].
      by destruct (statement (world s)).
    + by left.
  - unfold plotter_step. destruct (plotter s).
    + destruct (RESET_REQUEST _); by left.
    + right; right; right. by split.
    + by left.
Qed.

Lemma listener_write_readings g g' :
  listener_write g g' →
  ANALOG_READINGS g' = ANALOG_READINGS g
  ∨ ∃ r, ANALOG_READINGS g' = deque_append r (ANALOG_READINGS g).
Proof. intros []; eauto. Qed.

Lemma button_write_readings g g' :
  button_write g g' → ANALOG_READINGS g' = ANALOG_READINGS g ∨ ANALOG_READINGS g' = [].
Proof. intros []; eauto. Qed.

Lemma step_readings_bounded s a :
  (length (ANALOG_READINGS (globals (world s))) ≤ maxlen →
   length (ANALOG_READINGS (globals (world (step s a)))) ≤ maxlen)%nat.
Proof.
  intros H. destruct (step_write s a) as [-> | [[_ Hw] | [[_ Hw] | [_ ->]]]]; [done| | |done].
  - destruct (listener_write_readings _ _ Hw) as [-> | [r ->]];
      [done | by apply deque_append_length].
  - destruct (button_write_readings _ _ Hw) as [-> | ->]; [done | simpl; lia].
Qed.

Lemma run_readings_bounded history s :
  (length (ANALOG_READINGS (globals (world s))) ≤ maxlen →
   length (ANALOG_READINGS (globals (world (run history s)))) ≤ maxlen)%nat.
Proof.
  revert s. induction history as [|a history IH]; intros s H; [done|].
  apply IH. by apply step_readings_bounded.
Qed.




(** The thirty-first reading pushes the first one out, and line 93 empties
    the buffer. *)
Example thirty_one_readings :
  ANALOG_READINGS (globals (world (run (thirty 1) (boot 0)))) = Z.of_nat <$> seq 1 30
  ∧ ANALOG_READINGS
      (globals (world (run (thirty 1 ++ heard (reading_datagram 31) 31) (boot 0))))
    = Z.of_nat <$> seq 2 30
  ∧ ANALOG_READINGS
      (globals (world (run (thirty 1 ++ before_clear ++ [Button 40000000 true 1]) (boot 0))))
    = [].
Proof. split_and!; vm_compute; reflexivity. Qed.

(** ** Datagrams during a reset *)














(** ** Colours *)

Lemma index_of_None id l : index_of id l = None ↔ id ∉ l.
Proof.
  induction l as [|x l IH]; simpl.
  - split; [intros _; apply not_elem_of_nil | done].
  - rewrite not_elem_of_cons. destruct (decide (id = x)) as [->|Hne].
    + split; [done | by intros [? _]].
    + rewrite <- IH. destruct (index_of id l); simpl.
      * split; [done | by intros [_ ?]].
      * by split.
Qed.

Lemma index_of_snoc_new id l : id ∉ l → index_of id (l ++ [id]) = Some (length l).
Proof.
  induction l as [|x l IH]; simpl; intros H.
  - by rewrite decide_True.
  - apply not_elem_of_cons in H as [Hne H].
    rewrite decide_False by done. by rewrite IH.
Qed.

Lemma index_of_snoc_other id x l : id ≠ x → index_of id (l ++ [x]) = index_of id l.
Proof.
  intros Hne. induction l as [|y l IH]; simpl.
  - by rewrite decide_False.
  - destruct (decide (id = y)); [done | by rewrite IH].
Qed.

Lemma assign_color_old (id : text) (m : gmap text color) :
  is_Some (m !! id) → assign_color id m = m.
Proof. intros [c H]. unfold assign_color. by rewrite H. Qed.

Lemma assign_color_new (id : text) (m : gmap text color) :
  m !! id = None → assign_color id m = <[id := palette_color (size m)]> m.
Proof.
  intros H. unfold assign_color. rewrite H.
  destruct (size m) as [|[|[|n]]]; reflexivity.
Qed.

Lemma assign_color_keeps (id x : text) (m : gmap text color) (c : color) :
  m !! id = Some c → assign_color x m !! id = Some c.
Proof.
  intros H. destruct (m !! x) as [c'|] eqn:Hx.
  - rewrite assign_color_old; [done | by eexists].
  - rewrite assign_color_new by done. rewrite lookup_insert_ne; [done | congruence].
Qed.

Lemma assign_color_idempotent (id : text) (m : gmap text color) :
  assign_color id (assign_color id m) = assign_color id m.
Proof.
  destruct (m !! id) as [c|] eqn:H.
  - assert (assign_color id m = m) as -> by (apply assign_color_old; by eexists).
    apply assign_color_old. by eexists.
  - apply assign_color_old. rewrite assign_color_new by done.
    rewrite lookup_insert_eq. by eexists.
Qed.

Lemma assign_color_follows (seen : list text) (m : gmap text color) (id : text) :
  colors_follow seen m →
  colors_follow (if decide (id ∈ seen) then seen else seen ++ [id]) (assign_color id m).
Proof.
  intros (Hnd & Hsize & Hcol). destruct (decide (id ∈ seen)) as [Hin|Hnin].
  - rewrite assign_color_old; [done|].
    rewrite Hcol. destruct (index_of id seen) eqn:E; [by eexists|].
    by apply index_of_None in E.
  - assert (m !! id = None) as Hm.
    { rewrite Hcol. by apply index_of_None in Hnin as ->. }
    rewrite assign_color_new by done. split_and!.
    + apply NoDup_app. split_and!; [done | | apply NoDup_singleton].
      intros x Hx Hx'. apply list_elem_of_singleton in Hx' as ->. done.
    + rewrite map_size_insert_None by done. rewrite length_app. simpl. lia.
    + intros id'. destruct (decide (id' = id)) as [->|Hne].
      * by rewrite lookup_insert_eq, index_of_snoc_new, Hsize.
      * rewrite lookup_insert_ne by done. by rewrite index_of_snoc_other, Hcol.
Qed.

Lemma replay_colors_follow (ms : list (text * Z)) (seen : list text) (g : Globals) :
  colors_follow seen (SWARM_COLORS g) →
  colors_follow (first_seen_from seen ms.*1) (SWARM_COLORS (replay ms g)).
Proof.
  revert seen g. induction ms as [|[x r] ms IH]; intros seen g H; [done|].
  rewrite replay_cons, fmap_cons. cbn [fst first_seen_from foldl].
  apply IH. rewrite update_store_colors. by apply assign_color_follows.
Qed.

Lemma replay_colors_keep (ms : list (text * Z)) (g : Globals) (id : text) (c : color) :
  SWARM_COLORS g !! id = Some c → SWARM_COLORS (replay ms g) !! id = Some c.
Proof.
  revert g. induction ms as [|[x r] ms IH]; intros g H; [done|].
  rewrite replay_cons. apply IH. rewrite update_store_colors.
  by apply assign_color_keeps.
Qed.

(** C8.  Starting with no colours assigned (as at start-up and after a
    reset), the colour of an id after any script is the palette colour of
    its rank among the distinct accepted ids in order of first arrival:
    red for the first, green for the second, yellow for every later one.
    A colour once assigned is the same after any further datagrams, and
    assigning twice is assigning once. *)
Theorem colors_by_arrival_order (script : list (Time * recv)) (g : Globals)
    (id : text) (m : gmap text color) :
  STOP_THREADS g = false → RESET_REQUEST g = false →
  (SWARM_COLORS g = ∅ →
   SWARM_COLORS (listen_for_messages script g).2 !! id
     = palette_color <$> index_of id (first_seen (accepted_ids script)))
  ∧ (∀ c, SWARM_COLORS g !! id = Some c →
          SWARM_COLORS (listen_for_messages script g).2 !! id = Some c)
  ∧ assign_color id (assign_color id m) = assign_color id m
  ∧ palette_color 0 = red ∧ palette_color 1 = green
  ∧ ∀ k, palette_color (2 + k) = yellow.
Proof.
  intros Hs Hr.
  pose proof (loop_store script g Hs Hr) as H. unfold store in H.
  injection H as _ Hcol _ _. rewrite Hcol. split_and!.
  - intros Hempty.
    assert (colors_follow [] (SWARM_COLORS g)) as H0.
    { rewrite Hempty. split_and!; [apply NoDup_nil_2 | done | done]. }
    by destruct (replay_colors_follow (accepted_messages script) [] g H0) as (_ & _ & ->).
  - intros c. apply replay_colors_keep.
  - apply assign_color_idempotent.
  - done.
  - done.
  - by intros [|k].
Qed.

Lemma colors_by_arrival_order_witness :
  SWARM_COLORS (listen_for_messages five_ids initial).2 !! code_points "D"
    = palette_color <$> index_of (code_points "D") (first_seen (accepted_ids five_ids))
  ∧ SWARM_COLORS (listen_for_messages five_ids (globals heard_A5_B3)).2 !! id_B = Some green.
Proof.
  split.
  - destruct (colors_by_arrival_order five_ids initial (code_points "D") ∅
                eq_refl eq_refl) as (Hrank & _).
    apply Hrank. reflexivity.
  - destruct (colors_by_arrival_order five_ids (globals heard_A5_B3) id_B ∅
                eq_refl eq_refl) as (_ & Hkeep & _).
    apply Hkeep. vm_compute. reflexivity.
Defined.

(** Red, green, and yellow from the third id on. *)
Example five_ids_colors :
  first_seen (accepted_ids five_ids) = code_points <$> ["A"; "B"; "C"; "D"; "E"]%string
  ∧ (λ id, SWARM_COLORS (listen_for_messages five_ids initial).2 !! code_points id)
      <$> ["A"; "B"; "C"; "D"; "E"; "F"]%string
    = [Some red; Some green; Some yellow; Some yellow; Some yellow; None].
Proof. split; vm_compute; reflexivity. Qed.

(** * Further properties of the code *)

(** ** The body of the loop, payload by payload *)

Lemma completes_fatal now m ip g :
  completes (process_message now m ip g) = negb (fatal m).
Proof.
  destruct (accepted m) as [[id r]|] eqn:Ha.
  - destruct (process_message_accepted now m ip g id r Ha) as (rd & Hf & Hi & ->).
    by rewrite (fatal_fields _ _ _ Hf), Hi.
  - by destruct (process_message_not_accepted now m ip g Ha).
Qed.

(** X1.  A payload that decodes to the start marker, an id, one
    separator, a reading and the end marker, with no separator inside the
    id or the reading and a reading that [int] accepts, is processed in
    full: the raw line is logged under the sender and the store is
    updated with the id and the integer. *)
Theorem well_formed_message_processed now m ip g id rd r :
  Utf8.decode m = Some (RPi_startBit ++ id ++ comma :: rd ++ RPi_endBit) →
  Str.contains comma id = false → Str.contains comma rd = false →
  PyInt.int rd = Some r →
  process_message now m ip g = Done (update_store id r (log_raw now ip id rd g)).
Proof.
  intros Hd Ha Hb Hi.
  rewrite (process_message_fields now m ip g id rd); [by rewrite Hi|].
  by apply fields_grammar.
Qed.

Lemma well_formed_message_processed_witness :
  process_message 7 "+++A,-12***" sender initial
  = Done (update_store id_A (-12) (log_raw 7 sender id_A (code_points "-12") initial)).
Proof.
  apply (well_formed_message_processed 7 "+++A,-12***" sender initial
           id_A (code_points "-12") (-12)); reflexivity.
Defined.

(** X2.  The store changes only for such payloads: if the body of the
    loop leaves the readings, the colours, the master or the durations
    different from what they were, the payload had that form. *)
Theorem store_changes_only_when_well_formed now m ip g :
  store (state_of (process_message now m ip g)) ≠ store g →
  ∃ id rd r,
    Utf8.decode m = Some (RPi_startBit ++ id ++ comma :: rd ++ RPi_endBit)
    ∧ Str.contains comma id = false ∧ Str.contains comma rd = false
    ∧ PyInt.int rd = Some r
    ∧ process_message now m ip g = Done (update_store id r (log_raw now ip id rd g)).
Proof.
  intros Hne. destruct (accepted m) as [[id r]|] eqn:Ha.
  - destruct (process_message_accepted now m ip g id r Ha) as (rd & Hf & Hi & Hp).
    apply fields_grammar in Hf as (Hd & Hida & Hrd). by exists id, rd, r.
  - by destruct (process_message_not_accepted now m ip g Ha).
Qed.

Lemma store_changes_only_when_well_formed_witness :
  ∃ id rd r,
    Utf8.decode "+++B,40***" = Some (RPi_startBit ++ id ++ comma :: rd ++ RPi_endBit)
    ∧ Str.contains comma id = false ∧ Str.contains comma rd = false
    ∧ PyInt.int rd = Some r
    ∧ process_message 7 "+++B,40***" sender initial
      = Done (update_store id r (log_raw 7 sender id rd initial)).
Proof.
  apply (store_changes_only_when_well_formed 7 "+++B,40***" sender initial).
  intros H. vm_compute in H. discriminate H.
Defined.

(** X3.  The body of the loop raises on exactly two kinds of payload:
    those that are not UTF-8, and those that are framed and contain the
    separator without being an accepted message (more than one separator,
    or a reading [int] rejects).  When it raises, the readings, the
    colours, the master and the durations are what they were. *)
Theorem body_raises_exactly now m ip g :
  (completes (process_message now m ip g) = false
   ↔ Utf8.decode m = None
     ∨ ∃ t, Utf8.decode m = Some t ∧ framed t = true
            ∧ Str.contains comma (interior t) = true ∧ accepted m = None)
  ∧ (completes (process_message now m ip g) = false →
     store (state_of (process_message now m ip g)) = store g).
Proof.
  rewrite completes_fatal, negb_false_iff. split.
  - unfold fatal. destruct (Utf8.decode m) as [t|] eqn:Hd.
    + rewrite !andb_true_iff. split.
      * intros [[Hf Hc] Ha]. right. exists t. split_and!; [done..|].
        by destruct (accepted m).
      * intros [? | (t' & [= <-] & Hf & Hc & Ha)]; [done|]. by rewrite Hf, Hc, Ha.
    + split; [by left | done].
  - intros Hfatal. destruct (accepted m) as [[id r]|] eqn:Ha.
    + destruct (process_message_accepted now m ip g id r Ha) as (rd & Hf & Hi & _).
      by rewrite (fatal_fields _ _ _ Hf), Hi in Hfatal.
    + by destruct (process_message_not_accepted now m ip g Ha).
Qed.

Lemma body_raises_exactly_witness :
  (Utf8.decode "+++A,1,2***" = None
   ∨ ∃ t, Utf8.decode "+++A,1,2***" = Some t ∧ framed t = true
          ∧ Str.contains comma (interior t) = true ∧ accepted "+++A,1,2***" = None)
  ∧ store (state_of (process_message 7 "+++A,1,2***" sender (globals heard_A5_B3)))
    = store (globals heard_A5_B3).
Proof.
  destruct (body_raises_exactly 7 "+++A,1,2***" sender (globals heard_A5_B3))
    as [Hiff Hstore].
  split; [apply Hiff | apply Hstore]; reflexivity.
Defined.

(** ** The loop as a whole *)

Lemma listen_stopped script g :
  STOP_THREADS g = true → listen_for_messages script g = (Stopped, g).
Proof. intros H. destruct script; simpl; by rewrite H. Qed.

Lemma process_message_frame now m ip g :
  let g' := state_of (process_message now m ip g) in
  RESET_REQUEST g' = RESET_REQUEST g ∧ STOP_THREADS g' = STOP_THREADS g
  ∧ LOG_FILE g' = LOG_FILE g ∧ PREV_BUTTON_STATE g' = PREV_BUTTON_STATE g.
Proof.
  cbn zeta. destruct (fields m) as [[id rd]|] eqn:Hf.
  - rewrite (process_message_fields _ _ _ _ _ _ Hf).
    destruct (PyInt.int rd) as [r|]; [|done]. cbn [state_of]. unfold update_store.
    by destruct (decide (CURRENT_MASTER _ = Some id)).
  - destruct (Utf8.decode m) as [t|] eqn:Hd.
    + rewrite (process_message_no_fields _ _ _ _ _ Hd Hf).
      by destruct (framed t && Str.contains comma (interior t)).
    + by rewrite (process_message_undecodable _ _ _ _ Hd).
Qed.

(** X4.  Processing a script in two parts is processing it at once: when
    the loop has used up the first part and waits in [recvfrom], it goes
    on with the second part from the state it reached; when it left the
    loop in the first part, the second part is never looked at. *)
Theorem listen_in_two_parts script1 script2 g :
  listen_for_messages (script1 ++ script2) g
  = match listen_for_messages script1 g with
    | (Waiting, g') => listen_for_messages script2 g'
    | left_loop => left_loop
    end.
Proof.
  revert g. induction script1 as [|[now [m a|]] script1 IH]; intros g.
  - simpl. destruct (STOP_THREADS g) eqn:Hs; [by apply listen_stopped|].
    destruct (RESET_REQUEST g) eqn:Hr; [by apply listen_paused | done].
  - simpl. destruct (STOP_THREADS g); [done|]. destruct (RESET_REQUEST g); [done|].
    destruct (process_message now m a g); [apply IH | done].
  - simpl. destruct (STOP_THREADS g); [done|]. by destruct (RESET_REQUEST g).
Qed.

(** X5.  The loop never writes the two flags, the name of the log file
    or the remembered button level: whatever the script, and however the
    loop ends, they are what they were. *)
Theorem listener_leaves_control_state script g :
  RESET_REQUEST (listen_for_messages script g).2 = RESET_REQUEST g
  ∧ STOP_THREADS (listen_for_messages script g).2 = STOP_THREADS g
  ∧ LOG_FILE (listen_for_messages script g).2 = LOG_FILE g
  ∧ PREV_BUTTON_STATE (listen_for_messages script g).2 = PREV_BUTTON_STATE g.
Proof.
  revert g. induction script as [|[now [m a|]] script IH]; intros g; simpl;
    destruct (STOP_THREADS g) eqn:Hs; try done;
    destruct (RESET_REQUEST g) eqn:Hr; try done.
  pose proof (process_message_frame now m a g) as (H1 & H2 & H3 & H4).
  destruct (process_message now m a g) as [g'|e g']; cbn [state_of snd] in *.
  - destruct (IH g') as (-> & -> & -> & ->). by rewrite H1, H2, H3, H4.
  - by rewrite H1, H2, H3, H4.
Qed.

(** ** The raw log *)

Lemma process_message_log now m ip g :
  MASTER_LOG_TRACK (state_of (process_message now m ip g))
  = match fields m with
    | Some (id, rd) => MASTER_LOG_TRACK (log_raw now ip id rd g)
    | None => MASTER_LOG_TRACK g
    end.
Proof.
  destruct (fields m) as [[id rd]|] eqn:Hf.
  - rewrite (process_message_fields _ _ _ _ _ _ Hf).
    destruct (PyInt.int rd) as [r|]; [|done]. cbn [state_of]. apply update_store_log.
  - destruct (Utf8.decode m) as [t|] eqn:Hd.
    + rewrite (process_message_no_fields _ _ _ _ _ Hd Hf).
      by destruct (framed t && Str.contains comma (interior t)).
    + by rewrite (process_message_undecodable _ _ _ _ Hd).
Qed.

Lemma log_raw_lines now a id rd g ip :
  od_default [] ip (MASTER_LOG_TRACK (log_raw now a id rd g))
  = od_default [] ip (MASTER_LOG_TRACK g)
    ++ lines_of ip [(a, mkEntry now id rd)].
Proof.
  unfold log_raw, lines_of. cbn [MASTER_LOG_TRACK set_MASTER_LOG_TRACK].
  rewrite filter_cons, filter_nil. cbn [fst]. destruct (decide (a = ip)) as [->|Hne].
  - by rewrite od_default_set_eq.
  - rewrite od_default_set_ne by done. by rewrite app_nil_r.
Qed.

Lemma lines_of_cons ip x lines :
  lines_of ip (x :: lines) = lines_of ip [x] ++ lines_of ip lines.
Proof.
  unfold lines_of. rewrite !filter_cons, filter_nil.
  by destruct (decide (x.1 = ip)).
Qed.

(** X6.  After the loop has run through a script, the log of every
    sender is what it was followed by one line for each payload of that
    sender that had exactly one separator between the markers, in the
    order of arrival, up to the payload that ended the loop. *)
Theorem log_after_loop script g ip :
  STOP_THREADS g = false → RESET_REQUEST g = false →
  od_default [] ip (MASTER_LOG_TRACK (listen_for_messages script g).2)
  = od_default [] ip (MASTER_LOG_TRACK g) ++ lines_of ip (logged script).
Proof.
  revert g. induction script as [|[now [m a|]] script IH]; intros g Hs Hr.
  - simpl. rewrite Hs, Hr. by rewrite app_nil_r.
  - rewrite (listen_received _ _ _ _ _ Hs Hr). cbn [logged].
    pose proof (process_message_flags now m a g) as [Hs' Hr'].
    pose proof (process_message_log now m a g) as Hlog.
    pose proof (completes_fatal now m a g) as Hc.
    destruct (fields m) as [[id rd]|] eqn:Hf.
    + rewrite (fatal_fields _ _ _ Hf) in Hc. rewrite lines_of_cons, app_assoc.
      rewrite <- log_raw_lines, <- Hlog.
      destruct (process_message now m a g) as [g'|e g']; cbn [state_of completes] in *.
      * destruct (PyInt.int rd); [|done]. apply IH; congruence.
      * destruct (PyInt.int rd); [done|]. by rewrite app_nil_r.
    + destruct (process_message now m a g) as [g'|e g']; cbn [state_of completes] in *.
      * symmetry in Hc. apply negb_true_iff in Hc. rewrite Hc, <- Hlog.
        apply IH; congruence.
      * symmetry in Hc. apply negb_false_iff in Hc. rewrite Hc. cbn [snd].
        by rewrite Hlog, app_nil_r.
  - simpl. rewrite Hs, Hr. by rewrite app_nil_r.
Qed.

Lemma log_after_loop_witness :
  od_default [] sender
    (MASTER_LOG_TRACK (listen_for_messages duel_script (globals heard_A5_B3)).2)
  = od_default [] sender (MASTER_LOG_TRACK (globals heard_A5_B3))
    ++ lines_of sender (logged duel_script).
Proof.
  apply (log_after_loop duel_script (globals heard_A5_B3) sender); reflexivity.
Defined.

Lemma monitor_iteration_log t_save t_new delivered button_state w :
  MASTER_LOG_TRACK (globals (state_of (monitor_iteration t_save t_new delivered button_state w)))
  = MASTER_LOG_TRACK (globals w).
Proof.
  unfold monitor_iteration, save_current_logs.
  destruct (decide _); [|done].
  by destruct delivered, (LOG_FILE (globals w)).
Qed.

Lemma listener_write_log g g' ip :
  listener_write g g' →
  od_default [] ip (MASTER_LOG_TRACK g) `prefix_of` od_default [] ip (MASTER_LOG_TRACK g').
Proof.
  intros [| now a id rd g0 | | | |]; try done.
  rewrite log_raw_lines. by apply prefix_app_r.
Qed.

Lemma button_write_log g g' :
  button_write g g' → MASTER_LOG_TRACK g' = MASTER_LOG_TRACK g.
Proof. by intros []. Qed.

Lemma step_log_grows s a ip :
  od_default [] ip (MASTER_LOG_TRACK (globals (world s)))
    `prefix_of` od_default [] ip (MASTER_LOG_TRACK (globals (world (step s a)))).
Proof.
  destruct (step_write s a) as [-> | [[_ Hw] | [[_ Hw] | [_ ->]]]]; [done| | |done].
  - by apply listener_write_log.
  - by rewrite (button_write_log _ _ Hw).
Qed.

(** X7.  No thread removes a raw line or changes one: through any
    interleaving of the statements of the listener, the button monitor
    and the plotting thread, the log of a sender only grows at its
    end. *)
Theorem log_only_grows history s ip :
  od_default [] ip (MASTER_LOG_TRACK (globals (world s)))
    `prefix_of` od_default [] ip (MASTER_LOG_TRACK (globals (world (run history s)))).
Proof.
  revert s. induction history as [|a history IH]; intros s; [done|].
  etrans; [apply (step_log_grows s a ip) | apply IH].
Qed.


(** ** The window of readings *)

Lemma deque_append_last_n (h : list Z) r :
  deque_append r (last_n 30 h) = last_n 30 (h ++ [r]).
Proof.
  unfold deque_append, last_n, maxlen. rewrite length_drop, length_app. simpl.
  destruct (decide (length h - (length h - 30) < 30)%nat) as [Hlt|Hge].
  - replace (length h - 30)%nat with 0%nat by lia.
    by replace (length h + 1 - 30)%nat with 0%nat by lia.
  - rewrite drop_drop, drop_app.
    replace (length h + 1 - 30 - length h)%nat with 0%nat by lia.
    by replace (length h - 30 + 1)%nat with (length h + 1 - 30)%nat by lia.
Qed.

Lemma replay_readings ms g (h : list Z) :
  ANALOG_READINGS g = last_n 30 h →
  ANALOG_READINGS (replay ms g) = last_n 30 (h ++ ms.*2).
Proof.
  revert g h. induction ms as [|[x r] ms IH]; intros g h H.
  - by rewrite app_nil_r.
  - rewrite replay_cons, fmap_cons. cbn [snd].
    rewrite (IH _ (h ++ [r])); [by rewrite <- app_assoc|].
    by rewrite update_store_readings, H, deque_append_last_n.
Qed.

(** X8.  Started on an empty buffer, the loop leaves in it the readings
    of the last thirty accepted messages, oldest first (all of them when
    there were fewer). *)
Theorem window_holds_latest_readings script g :
  STOP_THREADS g = false → RESET_REQUEST g = false → ANALOG_READINGS g = [] →
  ANALOG_READINGS (listen_for_messages script g).2 = last_n 30 (accepted_readings script).
Proof.
  intros Hs Hr He.
  pose proof (loop_store script g Hs Hr) as H. unfold store in H.
  injection H as Hrd _ _ _. rewrite Hrd.
  by rewrite (replay_readings _ g []).
Qed.

Lemma window_holds_latest_readings_witness :
  ANALOG_READINGS (listen_for_messages thirty_two initial).2
  = last_n 30 (accepted_readings thirty_two).
Proof. apply (window_holds_latest_readings thirty_two initial); reflexivity. Defined.

(** Of thirty-two readings the first two are gone. *)
Example thirty_two_readings :
  last_n 30 (accepted_readings thirty_two) = Z.of_nat <$> seq 3 30.
Proof. vm_compute. reflexivity. Qed.

(** ** The duration table *)

Section OrderedDictShape.
Context {K V : Type} `{EqDecision K}.
Implicit Types (k : K) (v : V) (d : list (K * V)).

Lemma od_set_keys k v d :
  (od_set k v d).*1 = if decide (k ∈ d.*1) then d.*1 else d.*1 ++ [k].
Proof.
  induction d as [|[k' v'] d IH]; cbn [od_set].
  - destruct (decide (k ∈ ([] : list (K * V)).*1)) as [H|_]; [|done].
    by apply elem_of_nil in H.
  - destruct (decide (k = k')) as [->|Hne]; rewrite !fmap_cons; cbn [fst].
    + rewrite decide_True; [done | apply list_elem_of_here].
    + rewrite IH. destruct (decide (k ∈ d.*1)) as [Hin|Hnin].
      * rewrite decide_True; [done | by apply list_elem_of_further].
      * rewrite decide_False; [done|]. by intros [?|?]%elem_of_cons.
Qed.

Lemma od_set_set k v v' d : od_set k v' (od_set k v d) = od_set k v' d.
Proof.
  induction d as [|[k0 v0] d IH]; simpl.
  - by rewrite decide_True.
  - destruct (decide (k = k0)) as [->|Hne]; simpl.
    + by rewrite decide_True.
    + rewrite decide_False by done. by rewrite IH.
Qed.

Lemma od_default_cons_ne dflt k k' v d :
  k ≠ k' → od_default dflt k ((k', v) :: d) = od_default dflt k d.
Proof. intros Hne. unfold od_default. simpl. by rewrite decide_False. Qed.

(** A table without repeated keys is the list of its keys, each with the
    value found under it. *)
Lemma od_self dflt d :
  NoDup d.*1 → d = (λ k, (k, od_default dflt k d)) <$> d.*1.
Proof.
  induction d as [|[k v] d IH]; [done|]. rewrite fmap_cons. cbn [fst].
  intros [Hk Hnd]%NoDup_cons. rewrite fmap_cons. f_equal.
  - unfold od_default. simpl. by rewrite decide_True.
  - rewrite (IH Hnd) at 1. apply list_fmap_ext.
    intros i k' Hk'. f_equal. symmetry. apply od_default_cons_ne.
    intros ->. apply Hk. by eapply list_elem_of_lookup_2.
Qed.
End OrderedDictShape.

Lemma first_seen_from_NoDup (seen ids : list text) :
  NoDup seen → NoDup (first_seen_from seen ids).
Proof.
  revert seen. induction ids as [|id ids IH]; intros seen H; [done|].
  cbn [first_seen_from foldl]. apply IH.
  destruct (decide (id ∈ seen)); [done|].
  apply NoDup_app. split_and!; [done | | apply NoDup_singleton].
  intros x Hx Hx'. apply list_elem_of_singleton in Hx' as ->. done.
Qed.

Lemma replay_duration_keys ms g :
  (MASTER_DURATION_TRACK (replay ms g)).*1
  = first_seen_from (MASTER_DURATION_TRACK g).*1 ms.*1.
Proof.
  revert g. induction ms as [|[x r] ms IH]; intros g; [done|].
  rewrite replay_cons, IH, update_store_durations, od_set_keys, fmap_cons. done.
Qed.

(** X9.  Started with no durations, the loop leaves a table with one
    entry for each distinct accepted id, in the order in which the ids
    first arrived, each with the number of accepted messages that carried
    it.  This is the table [save_current_logs] writes as the summary and
    [update_bar] draws. *)
Theorem duration_table_after_loop script g :
  STOP_THREADS g = false → RESET_REQUEST g = false → MASTER_DURATION_TRACK g = [] →
  MASTER_DURATION_TRACK (listen_for_messages script g).2
  = (λ id, (id, occurrences id (accepted_ids script))) <$> first_seen (accepted_ids script).
Proof.
  intros Hs Hr He.
  pose proof (loop_store script g Hs Hr) as H. unfold store in H.
  injection H as _ _ _ Hd. rewrite Hd.
  pose proof (replay_duration_keys (accepted_messages script) g) as Hk.
  rewrite He in Hk. change (first_seen_from [].*1 _) with (first_seen (accepted_ids script)) in Hk.
  rewrite (od_self 0 (MASTER_DURATION_TRACK (replay (accepted_messages script) g))).
  - rewrite Hk. apply list_fmap_ext. intros i id _. f_equal.
    rewrite replay_durations, He. unfold accepted_ids. done.
  - rewrite Hk. apply first_seen_from_NoDup, NoDup_nil_2.
Qed.

Lemma duration_table_after_loop_witness :
  MASTER_DURATION_TRACK (listen_for_messages five_ids initial).2
  = (λ id, (id, occurrences id (accepted_ids five_ids))) <$> first_seen (accepted_ids five_ids).
Proof. apply (duration_table_after_loop five_ids initial); reflexivity. Defined.

(** ** The frames of the plot *)

Lemma index_of_lookup (l : list text) (k : nat) (id : text) :
  NoDup l → l !! k = Some id → index_of id l = Some k.
Proof.
  revert k. induction l as [|x l IH]; intros k Hnd Hk; [done|].
  apply NoDup_cons in Hnd as [Hx Hnd]. destruct k as [|k]; simpl in *.
  - injection Hk as ->. by rewrite decide_True.
  - rewrite decide_False.
    + by rewrite (IH k Hnd Hk).
    + intros ->. apply Hx. by eapply list_elem_of_lookup_2.
Qed.

Lemma py_max_ge d (values : list Z) v : v ∈ values → v ≤ py_max d values.
Proof.
  destruct values as [|v0 values]; [by intros ?%elem_of_nil|]. cbn [py_max].
  assert (∀ (l : list Z) a, a ≤ foldl Z.max a l
                            ∧ ∀ x, x ∈ l → x ≤ foldl Z.max a l) as H.
  { induction l as [|y l IH]; intros a; simpl.
    - split; [lia | by intros x ?%elem_of_nil].
    - destruct (IH (Z.max a y)) as [H1 H2]. split; [lia|].
      intros x [->|Hx]%elem_of_cons; [lia | by apply H2]. }
  destruct (H values v0) as [H1 H2].
  intros [->|Hv]%elem_of_cons; [done | by apply H2].
Qed.

(** X10.  Started on a cleared store, after any script the bar chart
    has one bar for each distinct accepted id, in order of first arrival,
    as high as the number of accepted messages of that id, in the palette
    colour of its rank: the default colour of the chart is never used.
    In any state no bar is higher than the upper end of the axis. *)
Theorem bar_chart_after_loop script g g0 :
  STOP_THREADS g = false → RESET_REQUEST g = false →
  MASTER_DURATION_TRACK g = [] → SWARM_COLORS g = ∅ →
  bars (update_bar (listen_for_messages script g).2)
  = imap (λ k id, (id, occurrences id (accepted_ids script), swarm (palette_color k)))
      (first_seen (accepted_ids script))
  ∧ Forall (λ b, b.1.2 ≤ ylim_top (update_bar g0)) (bars (update_bar g0)).
Proof.
  intros Hs Hr Hd Hc. split.
  - assert (MASTER_DURATION_TRACK (listen_for_messages script g).2
            = (λ id, (id, occurrences id (accepted_ids script)))
                <$> first_seen (accepted_ids script)) as Htable.
    { pose proof (loop_store script g Hs Hr) as H. unfold store in H.
      injection H as _ _ _ Htab. rewrite Htab.
      pose proof (replay_duration_keys (accepted_messages script) g) as Hk.
      rewrite Hd in Hk.
      change (first_seen_from [].*1 _) with (first_seen (accepted_ids script)) in Hk.
      rewrite (od_self 0 (MASTER_DURATION_TRACK (replay (accepted_messages script) g))).
      - rewrite Hk. apply list_fmap_ext. intros i id _. f_equal.
        rewrite replay_durations, Hd. unfold accepted_ids. done.
      - rewrite Hk. apply first_seen_from_NoDup, NoDup_nil_2. }
    assert (colors_follow (first_seen (accepted_ids script))
              (SWARM_COLORS (listen_for_messages script g).2)) as (Hnd & _ & Hcol).
    { pose proof (loop_store script g Hs Hr) as H. unfold store in H.
      injection H as _ Hcols _ _. rewrite Hcols.
      apply (replay_colors_follow (accepted_messages script) [] g).
      rewrite Hc. split_and!; [apply NoDup_nil_2 | done | done]. }
    unfold update_bar. cbn [bars]. rewrite Htable, <- list_fmap_compose.
    apply list_eq. intros k. rewrite list_lookup_fmap, list_lookup_imap.
    destruct (first_seen (accepted_ids script) !! k) as [id|] eqn:Hk; [|done].
    cbn. unfold color_or_blue. by rewrite Hcol, (index_of_lookup _ k id Hnd Hk).
  - unfold update_bar. cbn [bars ylim_top]. apply Forall_fmap, Forall_forall.
    intros [id d] Hin. cbn. apply py_max_ge.
    apply list_elem_of_fmap. by exists (id, d).
Qed.

Lemma bar_chart_after_loop_witness :
  bars (update_bar (listen_for_messages five_ids initial).2)
  = imap (λ k id, (id, occurrences id (accepted_ids five_ids), swarm (palette_color k)))
      (first_seen (accepted_ids five_ids))
  ∧ Forall (λ b, b.1.2 ≤ ylim_top (update_bar (globals heard_A5_B3)))
      (bars (update_bar (globals heard_A5_B3))).
Proof.
  apply (bar_chart_after_loop five_ids initial (globals heard_A5_B3)); reflexivity.
Defined.

(** Two bars for A, one for each of the others; the axis ends at the
    highest bar, or at 30 when there is none. *)
Example five_ids_bars :
  update_bar (listen_for_messages five_ids initial).2
  = mkBarChart
      [ (code_points "A", 2, swarm red); (code_points "B", 1, swarm green);
        (code_points "C", 1, swarm yellow); (code_points "D", 1, swarm yellow);
        (code_points "E", 1, swarm yellow) ] 2
  ∧ update_bar initial = mkBarChart [] 30.
Proof. split; vm_compute; reflexivity. Qed.

Lemma update_plot_y_data g p :
  y_data (update_plot g p)
  = ANALOG_READINGS g ++ replicate (30 - length (ANALOG_READINGS g)) 0.
Proof.
  unfold update_plot.
  destruct (ANALOG_READINGS g) as [|r rs]; by destruct (CURRENT_MASTER g) as [[|c rest]|].
Qed.

(** X11.  In every state the threads reach from start-up, whatever the
    interleaving of their statements, [update_plot] run on the globals of
    that state draws a series of exactly thirty points: the readings in
    the buffer, oldest first, followed by zeros. *)
Theorem plotted_series_has_thirty_points history t0 p :
  length (y_data (update_plot (globals (world (run history (boot t0)))) p)) = 30%nat
  ∧ y_data (update_plot (globals (world (run history (boot t0)))) p)
    = ANALOG_READINGS (globals (world (run history (boot t0))))
      ++ replicate
           (30 - length (ANALOG_READINGS (globals (world (run history (boot t0)))))) 0.
Proof.
  split; [|apply update_plot_y_data].
  rewrite update_plot_y_data, length_app, length_replicate.
  assert (length (ANALOG_READINGS (globals (world (run history (boot t0))))) ≤ maxlen)%nat
    as H.
  { apply run_readings_bounded. simpl. unfold maxlen. lia. }
  unfold maxlen in H. lia.
Qed.


Lemma assign_color_lookup (id : text) (m : gmap text color) :
  is_Some (assign_color id m !! id).
Proof.
  destruct (m !! id) as [c|] eqn:H.
  - rewrite assign_color_old; [by eexists | by eexists].
  - rewrite assign_color_new by done. rewrite lookup_insert_eq. by eexists.
Qed.

Lemma replay_last_colored (ms : list (text * Z)) (g : Globals) (id : text) :
  last ms.*1 = Some id → is_Some (SWARM_COLORS (replay ms g) !! id).
Proof.
  destruct ms as [|m ms _] using rev_ind; [done|].
  rewrite fmap_app. change ([m].*1) with [m.1]. rewrite last_snoc. intros [= <-].
  unfold replay. rewrite foldl_snoc, update_store_colors.
  apply assign_color_lookup.
Qed.

(** X12.  Started on a cleared store with no master, after any script
    the line is drawn in the palette colour of the rank of the latest
    accepted id, never in the default colour; when nothing was accepted,
    or the latest accepted id is the empty string, the line keeps the
    colour it had. *)
Theorem line_color_after_loop script g p :
  STOP_THREADS g = false → RESET_REQUEST g = false →
  SWARM_COLORS g = ∅ → CURRENT_MASTER g = None →
  match last (accepted_ids script) with
  | Some (c :: rest) =>
    ∃ k, index_of (c :: rest) (first_seen (accepted_ids script)) = Some k
         ∧ line_color (update_plot (listen_for_messages script g).2 p)
           = swarm (palette_color k)
  | _ => line_color (update_plot (listen_for_messages script g).2 p) = line_color p
  end.
Proof.
  intros Hs Hr Hc Hm.
  pose proof (loop_store script g Hs Hr) as H. unfold store in H.
  injection H as _ Hcols Hmaster _.
  rewrite replay_master, Hm in Hmaster. fold (accepted_ids script) in Hmaster.
  assert (colors_follow (first_seen (accepted_ids script))
            (SWARM_COLORS (listen_for_messages script g).2)) as (_ & _ & Hcol).
  { rewrite Hcols. apply (replay_colors_follow (accepted_messages script) [] g).
    rewrite Hc. split_and!; [apply NoDup_nil_2 | done | done]. }
  unfold update_plot. rewrite Hmaster.
  destruct (last (accepted_ids script)) as [[|c rest]|] eqn:Hlast; [done| |done].
  cbn [line_color].
  destruct (replay_last_colored (accepted_messages script) g (c :: rest) Hlast) as [col Hsome].
  rewrite <- Hcols, Hcol in Hsome. unfold color_or_blue. rewrite Hcol.
  destruct (index_of (c :: rest) (first_seen (accepted_ids script))) as [k|]; [|done].
  by exists k.
Qed.

Lemma line_color_after_loop_witness :
  match last (accepted_ids duel_script) with
  | Some (c :: rest) =>
    ∃ k, index_of (c :: rest) (first_seen (accepted_ids duel_script)) = Some k
         ∧ line_color (update_plot (listen_for_messages duel_script initial).2 initial_plot)
           = swarm (palette_color k)
  | _ => line_color (update_plot (listen_for_messages duel_script initial).2 initial_plot)
         = line_color initial_plot
  end.
Proof.
  apply (line_color_after_loop duel_script initial initial_plot); reflexivity.
Defined.

(** ** The button loop *)

Lemma sends_app es1 es2 : sends (es1 ++ es2) = (sends es1 + sends es2)%nat.
Proof. unfold sends. by rewrite filter_app, length_app. Qed.

Lemma sends_reset_trace : sends reset_trace = 1%nat.
Proof. reflexivity. Qed.

Lemma monitor_iteration_delivered t_save t_new button_state w :
  ∃ w', monitor_iteration t_save t_new true button_state w = Done w'
        ∧ effects w'
          = effects w
            ++ (if decide (button_state = 1 ∧ PREV_BUTTON_STATE (globals w) = 0)
                then reset_trace else [])
            ++ [Sleep 100]
        ∧ PREV_BUTTON_STATE (globals w') = button_state
        ∧ STOP_THREADS (globals w') = STOP_THREADS (globals w).
Proof.
  unfold monitor_iteration, save_current_logs.
  destruct (decide _).
  - destruct (LOG_FILE (globals w)); eexists; (split; [reflexivity|]);
      cbn [effects emit globals with_globals set_files get_new_log_file];
      rewrite <- ?app_assoc; by split_and!.
  - eexists. split; [reflexivity|]. by split_and!.
Qed.

(** X13.  With every broadcast going through, the button loop resets
    once for each sample that reads 1 right after a sample that read 0,
    and not again while the button is held: the number of datagrams sent
    grows by the number of such rising edges.  At the end the remembered
    level is that of the last sample. *)
Theorem button_resets_on_rising_edges samples w :
  STOP_THREADS (globals w) = false →
  ∃ w', monitor_button (all_delivered samples) w = (Waiting, w')
        ∧ sends (effects w')
          = (sends (effects w) + rising_edges (PREV_BUTTON_STATE (globals w)) samples.*2)%nat
        ∧ PREV_BUTTON_STATE (globals w')
          = default (PREV_BUTTON_STATE (globals w)) (last samples.*2).
Proof.
  revert w. induction samples as [|[[ts tn] b] samples IH]; intros w Hs.
  - exists w. simpl. rewrite Hs. split_and!; [done | lia | done].
  - destruct (monitor_iteration_delivered ts tn b w) as (w1 & Hit & Heff & Hprev & Hstop).
    destruct (IH w1) as (w' & Hloop & Hsends & Hlast); [congruence|].
    exists w'. split_and!.
    + unfold all_delivered in *. rewrite fmap_cons. cbn [monitor_button fst snd].
      by rewrite Hs, Hit.
    + rewrite Hsends, Heff, !sends_app, Hprev, fmap_cons. cbn [rising_edges snd].
      change (sends [Sleep 100]) with 0%nat.
      destruct (decide _); [rewrite sends_reset_trace | change (sends []) with 0%nat]; lia.
    + rewrite Hlast, Hprev, fmap_cons, last_cons. cbn [snd].
      by destruct (last samples.*2).
Qed.

Lemma button_resets_on_rising_edges_witness :
  ∃ w', monitor_button (all_delivered held_then_pressed) heard_A5_B3 = (Waiting, w')
        ∧ sends (effects w')
          = (sends (effects heard_A5_B3)
             + rising_edges (PREV_BUTTON_STATE (globals heard_A5_B3)) held_then_pressed.*2)%nat
        ∧ PREV_BUTTON_STATE (globals w')
          = default (PREV_BUTTON_STATE (globals heard_A5_B3)) (last held_then_pressed.*2).
Proof. apply (button_resets_on_rising_edges held_then_pressed heard_A5_B3). reflexivity. Defined.

(** Held for three samples, released and pressed again: two resets. *)
Example held_then_pressed_edges : rising_edges 0 held_then_pressed.*2 = 2%nat.
Proof. reflexivity. Qed.

(** X14.  A press saves before it clears: the iteration that sees the
    press with the broadcast going through writes, under the name the
    session had, the durations and the raw lines as they were before the
    reset; afterwards the store is empty, the session has its new name,
    the request flag is down and the level 1 is remembered. *)
Theorem press_saves_then_clears t_save t_new w name :
  PREV_BUTTON_STATE (globals w) = 0 → LOG_FILE (globals w) = Some name →
  ∃ w', monitor_iteration t_save t_new true 1 w = Done w'
        ∧ od_get name (files w')
          = Some (mkLogFile t_save (MASTER_DURATION_TRACK (globals w))
                    (MASTER_LOG_TRACK (globals w)))
        ∧ store_empty (globals w')
        ∧ LOG_FILE (globals w') = Some (log_file_name t_new)
        ∧ RESET_REQUEST (globals w') = false
        ∧ PREV_BUTTON_STATE (globals w') = 1.
Proof.
  intros Hp Hn. unfold monitor_iteration, save_current_logs.
  rewrite decide_True by done. rewrite Hn. eexists. split; [reflexivity|].
  cbn [files emit with_globals set_files get_new_log_file globals].
  split_and!; try done. apply od_get_set_eq.
Qed.

Lemma press_saves_then_clears_witness :
  ∃ w', monitor_iteration 9000000 9000000 true 1 heard_A5_B3 = Done w'
        ∧ od_get 0 (files w')
          = Some (mkLogFile 9000000 (MASTER_DURATION_TRACK (globals heard_A5_B3))
                    (MASTER_LOG_TRACK (globals heard_A5_B3)))
        ∧ store_empty (globals w')
        ∧ LOG_FILE (globals w') = Some (log_file_name 9000000)
        ∧ RESET_REQUEST (globals w') = false
        ∧ PREV_BUTTON_STATE (globals w') = 1.
Proof.
  apply (press_saves_then_clears 9000000 9000000 heard_A5_B3 0); reflexivity.
Defined.

(** ** Saving *)

(** X16.  Saving writes one file only, the one [LOG_FILE] names, and
    changes no global; saving again replaces what the first save wrote,
    so that two saves leave what the second alone would. *)
Theorem save_touches_one_file t1 t2 w other :
  LOG_FILE (globals w) ≠ Some other →
  od_get other (files (save_current_logs t1 w)) = od_get other (files w)
  ∧ globals (save_current_logs t1 w) = globals w
  ∧ save_current_logs t2 (save_current_logs t1 w) = save_current_logs t2 w.
Proof.
  intros Hne. unfold save_current_logs.
  destruct (LOG_FILE (globals w)) as [name|] eqn:Hn; [|by rewrite Hn].
  cbn [globals set_files files]. rewrite Hn. split_and!.
  - apply od_get_set_ne. congruence.
  - done.
  - unfold set_files. cbn [globals files inbox effects]. by rewrite od_set_set.
Qed.

Lemma save_touches_one_file_witness :
  od_get 0 (files (save_current_logs 9000000 second_rotation))
    = od_get 0 (files second_rotation)
  ∧ globals (save_current_logs 9000000 second_rotation) = globals second_rotation
  ∧ save_current_logs 9500000 (save_current_logs 9000000 second_rotation)
    = save_current_logs 9500000 second_rotation.
Proof.
  apply (save_touches_one_file 9000000 9500000 second_rotation 0).
  vm_compute. discriminate.
Defined.

(** ** The request flag and the place of the button monitor *)

Lemma step_button_kept s a :
  (∀ now delivered level, a ≠ Button now delivered level) → button (step s a) = button s.
Proof.
  destruct a as [payload address|now|now delivered level|]; intros Ha.
  - done.
  - cbn [step]. unfold listener_step. destruct (listener s) as [| |m ip k|how]; [| | |done].
    + destruct (STOP_THREADS _); [done|]. by destruct (RESET_REQUEST _).
    + by destruct (inbox (world s)) as [|[payload address] queued].
    + destruct (body_statements m ip !! k) as [statement|]; [|done].
      by destruct (statement now (globals (world s))).
  - by destruct (Ha now delivered level).
  - cbn [step]. unfold plotter_step. destruct (plotter s); [|done..].
    by destruct (RESET_REQUEST _).
Qed.

(** Only the button monitor writes the request flag. *)
Lemma step_flag_kept s a :
  (∀ now delivered level, a ≠ Button now delivered level) →
  RESET_REQUEST (globals (world (step s a))) = RESET_REQUEST (globals (world s)).
Proof.
  intros Ha.
  destruct (step_write s a) as [-> | [[_ Hw] | [[(now & delivered & level & ->) _] | [_ ->]]]];
    [done| | |done].
  - by destruct Hw.
  - by destruct (Ha now delivered level).
Qed.

Lemma button_step_flag now delivered level s :
  RESET_REQUEST (globals (world s)) = resetting (button s) →
  RESET_REQUEST (globals (world (button_step now delivered level s)))
  = resetting (button (button_step now delivered level s)).
Proof.
  intros Hinv. unfold button_step.
  destruct (button s) as [|button_state pressed k|how] eqn:Hb; [| |by rewrite Hb].
  - destruct (STOP_THREADS _); cbn [world button resetting] in *; [done|].
    by destruct (bool_decide _).
  - destruct pressed.
    + index_cases 14%nat k
        ltac:(cbn [iteration_statements app reset_system_body lookup list_lookup];
              cbn [resetting Nat.leb andb] in Hinv); try done.
      * unfold save_current_logs. by destruct (LOG_FILE (globals (world s))).
      * unfold sendto. by destruct delivered.
    + index_cases 2%nat k
        ltac:(cbn [iteration_statements app lookup list_lookup];
              cbn [resetting] in Hinv); done.
Qed.

(** X17.  From start-up, whatever the interleaving of the statements of
    the threads, the request flag is up exactly while the button monitor
    is inside [reset_system] between the raising of the flag (line 82)
    and its lowering (line 100), or has died there on a failed
    broadcast.  This is when the listener's test (line 110) and the
    plotting thread's test (line 240) can find it up. *)
Theorem flag_up_while_resetting history t0 :
  RESET_REQUEST (globals (world (run history (boot t0))))
  = resetting (button (run history (boot t0))).
Proof.
  assert (∀ s, RESET_REQUEST (globals (world s)) = resetting (button s) →
               RESET_REQUEST (globals (world (run history s)))
               = resetting (button (run history s))) as Hinv.
  { induction history as [|a history IH]; intros s Hs; [done|].
    apply IH. destruct a as [payload address|now|now delivered level|].
    - done.
    - by rewrite step_flag_kept, step_button_kept.
    - by apply button_step_flag.
    - by rewrite step_flag_kept, step_button_kept. }
  by apply Hinv.
Qed.

(** The plotting thread finds the flag up during the three seconds of the
    reset and clears the durations after the reset has ended and the
    listener has counted a message. *)
Example late_clearing :
  RESET_REQUEST (globals (world late_tested)) = true
  ∧ plotter late_tested = Clearing
  ∧ RESET_REQUEST (globals (world late_counted)) = false
  ∧ MASTER_DURATION_TRACK (globals (world late_counted)) = [(id_A, 1)]
  ∧ MASTER_DURATION_TRACK (globals (world (step late_counted Plotter))) = []
  ∧ CURRENT_MASTER (globals (world (step late_counted Plotter))) = Some id_A.
Proof. split_and!; vm_compute; reflexivity. Qed.

(** ** A failed broadcast *)






